(** * The rolling buffer of the advanced screen recorder

    A shallow embedding of the background-recording half of the
    [AdvancedScreenRecorder] React component: the buffer of timestamped and
    indexed chunks, the age-based clean-up, the capture of the last minutes,
    and the handlers of the background [MediaRecorder].

    Conventions of the embedding.
    - A JavaScript number holding a time in milliseconds, a chunk index or a
      duration in minutes is an integer of [Z].
    - A [Blob] is its sequence of bytes and its MIME type; [size] is the
      number of bytes.
    - [Date.now()] is an input: every function that reads the clock takes the
      value read as its argument [now].
    - The component's refs ([useRef]) and state ([useState]) are the fields of
      one record, [Recorder].  A function of the component is a closure over
      the state values of the render that created it: the model reads them
      from the record it is given, and the values written by the state
      setters are only visible in the record it returns.
    - [toast] appends to a log kept in the record. *)

From stdpp Require Import base list strings pretty sorting.
From Stdlib Require Import ZArith QArith Lia.

#[local] Open Scope Z_scope.

(** ** Data model *)

Record Blob : Type := mkBlob {
  blob_bytes : list Byte.byte;
  blob_type : string
}.

(** [blob.size] *)
Definition size (b : Blob) : Z := Z.of_nat (length (blob_bytes b)).

(** [new Blob(parts, { type })]: the parts' bytes, one after the other. *)
Definition new_Blob (parts : list Blob) (type : string) : Blob :=
  {| blob_bytes := concat (blob_bytes <$> parts); blob_type := type |}.

(** [interface BufferChunk] *)
Record BufferChunk : Type := mkChunk {
  data : Blob;
  timestamp : Z;
  index : Z
}.

Inductive ScreenSource : Type := screen | window | tab.
Inductive VideoQuality : Type := low | medium | high | ultra.

(** [interface RecordingSettings]; the field [backgroundRecording] of the
    settings is written [backgroundRecording_setting], the name
    [backgroundRecording] being the state variable of the component. *)
Record RecordingSettings : Type := mkSettings {
  screenSource : ScreenSource;
  includeSystemAudio : bool;
  includeMicrophone : bool;
  videoQuality : VideoQuality;
  frameRate : Z;
  audioBitrate : Z;
  backgroundRecording_setting : bool;
  bufferDuration : Z  (* minutes *)
}.

(** One call of [updateSettings(key, value)]: a key with a value of the
    field's type. *)
Inductive SettingChange : Type :=
| Set_screenSource (v : ScreenSource)
| Set_includeSystemAudio (v : bool)
| Set_includeMicrophone (v : bool)
| Set_videoQuality (v : VideoQuality)
| Set_frameRate (v : Z)
| Set_audioBitrate (v : Z)
| Set_backgroundRecording (v : bool)
| Set_bufferDuration (v : Z).

(** [{ ...prev, [key]: value }] *)
Definition apply_change (prev : RecordingSettings) (c : SettingChange)
  : RecordingSettings :=
  match c with
  | Set_screenSource v =>
      mkSettings v (includeSystemAudio prev) (includeMicrophone prev)
        (videoQuality prev) (frameRate prev) (audioBitrate prev)
        (backgroundRecording_setting prev) (bufferDuration prev)
  | Set_includeSystemAudio v =>
      mkSettings (screenSource prev) v (includeMicrophone prev)
        (videoQuality prev) (frameRate prev) (audioBitrate prev)
        (backgroundRecording_setting prev) (bufferDuration prev)
  | Set_includeMicrophone v =>
      mkSettings (screenSource prev) (includeSystemAudio prev) v
        (videoQuality prev) (frameRate prev) (audioBitrate prev)
        (backgroundRecording_setting prev) (bufferDuration prev)
  | Set_videoQuality v =>
      mkSettings (screenSource prev) (includeSystemAudio prev)
        (includeMicrophone prev) v (frameRate prev) (audioBitrate prev)
        (backgroundRecording_setting prev) (bufferDuration prev)
  | Set_frameRate v =>
      mkSettings (screenSource prev) (includeSystemAudio prev)
        (includeMicrophone prev) (videoQuality prev) v (audioBitrate prev)
        (backgroundRecording_setting prev) (bufferDuration prev)
  | Set_audioBitrate v =>
      mkSettings (screenSource prev) (includeSystemAudio prev)
        (includeMicrophone prev) (videoQuality prev) (frameRate prev) v
        (backgroundRecording_setting prev) (bufferDuration prev)
  | Set_backgroundRecording v =>
      mkSettings (screenSource prev) (includeSystemAudio prev)
        (includeMicrophone prev) (videoQuality prev) (frameRate prev)
        (audioBitrate prev) v (bufferDuration prev)
  | Set_bufferDuration v =>
      mkSettings (screenSource prev) (includeSystemAudio prev)
        (includeMicrophone prev) (videoQuality prev) (frameRate prev)
        (audioBitrate prev) (backgroundRecording_setting prev) v
  end.

(** [key === "bufferDuration"] *)
Definition is_bufferDuration (c : SettingChange) : bool :=
  match c with Set_bufferDuration _ => true | _ => false end.

Inductive ToastVariant : Type := default | destructive.

Record Toast : Type := mkToast {
  title : string;
  description : string;
  variant : ToastVariant
}.

(** The stream returned by [getDisplayMedia], known by its [id]. *)
Record MediaStream : Type := mkStream { stream_id : string }.

(** The background [MediaRecorder]: its stream, and whether it was created
    with [{ mimeType: "video/webm" }] or by the fallback without options. *)
Record MediaRecorder : Type := mkMediaRecorder {
  recorder_stream : MediaStream;
  recorder_webm : bool
}.

(** A caught exception: [err.name] and [err.message] (empty when absent). *)
Record JsError : Type := mkError { err_name : string; err_message : string }.

(** ** The component's state *)

Record Recorder : Type := mkRecorder {
  (* useState *)
  backgroundRecording : bool;
  videoURL : option Blob;      (* the blob the object URL stands for *)
  error : option string;
  bufferTime : Z;
  bufferSize : Z;
  settings : RecordingSettings;
  (* useRef *)
  backgroundRecorderRef : option MediaRecorder;
  backgroundStreamRef : option MediaStream;
  bufferChunksRef : list BufferChunk;
  chunkIndexRef : Z;
  (* useToast *)
  toasts : list Toast
}.

Definition setBackgroundRecording (v : bool) (s : Recorder) : Recorder :=
  mkRecorder v (videoURL s) (error s) (bufferTime s) (bufferSize s)
    (settings s) (backgroundRecorderRef s) (backgroundStreamRef s)
    (bufferChunksRef s) (chunkIndexRef s) (toasts s).

Definition setVideoURL (v : option Blob) (s : Recorder) : Recorder :=
  mkRecorder (backgroundRecording s) v (error s) (bufferTime s) (bufferSize s)
    (settings s) (backgroundRecorderRef s) (backgroundStreamRef s)
    (bufferChunksRef s) (chunkIndexRef s) (toasts s).

Definition setError (v : option string) (s : Recorder) : Recorder :=
  mkRecorder (backgroundRecording s) (videoURL s) v (bufferTime s)
    (bufferSize s) (settings s) (backgroundRecorderRef s)
    (backgroundStreamRef s) (bufferChunksRef s) (chunkIndexRef s) (toasts s).

Definition setBufferTime (v : Z) (s : Recorder) : Recorder :=
  mkRecorder (backgroundRecording s) (videoURL s) (error s) v (bufferSize s)
    (settings s) (backgroundRecorderRef s) (backgroundStreamRef s)
    (bufferChunksRef s) (chunkIndexRef s) (toasts s).

Definition setBufferSize (v : Z) (s : Recorder) : Recorder :=
  mkRecorder (backgroundRecording s) (videoURL s) (error s) (bufferTime s) v
    (settings s) (backgroundRecorderRef s) (backgroundStreamRef s)
    (bufferChunksRef s) (chunkIndexRef s) (toasts s).

Definition setSettings (v : RecordingSettings) (s : Recorder) : Recorder :=
  mkRecorder (backgroundRecording s) (videoURL s) (error s) (bufferTime s)
    (bufferSize s) v (backgroundRecorderRef s) (backgroundStreamRef s)
    (bufferChunksRef s) (chunkIndexRef s) (toasts s).

Definition set_backgroundRecorderRef (v : option MediaRecorder) (s : Recorder)
  : Recorder :=
  mkRecorder (backgroundRecording s) (videoURL s) (error s) (bufferTime s)
    (bufferSize s) (settings s) v (backgroundStreamRef s)
    (bufferChunksRef s) (chunkIndexRef s) (toasts s).

Definition set_backgroundStreamRef (v : option MediaStream) (s : Recorder)
  : Recorder :=
  mkRecorder (backgroundRecording s) (videoURL s) (error s) (bufferTime s)
    (bufferSize s) (settings s) (backgroundRecorderRef s) v
    (bufferChunksRef s) (chunkIndexRef s) (toasts s).

Definition set_bufferChunksRef (v : list BufferChunk) (s : Recorder)
  : Recorder :=
  mkRecorder (backgroundRecording s) (videoURL s) (error s) (bufferTime s)
    (bufferSize s) (settings s) (backgroundRecorderRef s)
    (backgroundStreamRef s) v (chunkIndexRef s) (toasts s).

Definition set_chunkIndexRef (v : Z) (s : Recorder) : Recorder :=
  mkRecorder (backgroundRecording s) (videoURL s) (error s) (bufferTime s)
    (bufferSize s) (settings s) (backgroundRecorderRef s)
    (backgroundStreamRef s) (bufferChunksRef s) v (toasts s).

(** [toast({ title, description, variant })] *)
Definition toast (t : Toast) (s : Recorder) : Recorder :=
  mkRecorder (backgroundRecording s) (videoURL s) (error s) (bufferTime s)
    (bufferSize s) (settings s) (backgroundRecorderRef s)
    (backgroundStreamRef s) (bufferChunksRef s) (chunkIndexRef s)
    (toasts s ++ [t]).

(** The component as first rendered: the initial values of [useState] and
    [useRef]. *)
Definition initial_settings : RecordingSettings :=
  mkSettings screen true false medium 30 128 false 3.

Definition initial : Recorder :=
  mkRecorder false None None 0 0 initial_settings None None [] 0 [].

(** ** Retention: [cleanupOldBufferChunks]

    The function closes over the [settings] of the render that created it;
    the model takes them as the argument [cfg].  [updateSettings] calls the
    function of its own render, the interval timer the function of the render
    in which the timer was installed. *)

Definition maxAge (cfg : RecordingSettings) : Z := bufferDuration cfg * 60 * 1000.

Definition cleanupOldBufferChunks (cfg : RecordingSettings) (now : Z)
  (s : Recorder) : Recorder :=
  set_bufferChunksRef
    (filter (λ chunk, now - timestamp chunk ≤ maxAge cfg) (bufferChunksRef s)) s.

(** The callback of the one-second interval of the background timer. *)
Definition bufferTimerTick (cfg : RecordingSettings) (now : Z) (s : Recorder)
  : Recorder :=
  cleanupOldBufferChunks cfg now
    (setBufferSize (Z.of_nat (length (bufferChunksRef s)))
       (setBufferTime (bufferTime s + 1) s)).

(** ** Ingestion: [mediaRecorder.ondataavailable]

    [event_data] is [event.data], absent or a blob. *)
Definition ondataavailable (event_data : option Blob) (now : Z) (s : Recorder)
  : Recorder :=
  match event_data with
  | Some d =>
      if decide (size d > 0) then
        let chunk := {| data := d; timestamp := now; index := chunkIndexRef s |} in
        let s1 := set_chunkIndexRef (chunkIndexRef s + 1) s in
        let s2 := set_bufferChunksRef (bufferChunksRef s1 ++ [chunk]) s1 in
        setBufferSize (Z.of_nat (length (bufferChunksRef s2))) s2
      else s
  | None => s
  end.

(** ** Session control: [startBackgroundRecording] and the recorder's handlers *)

(** How the [try] block of [startBackgroundRecording] ends once the awaited
    [getDisplayMedia] has settled. *)
Inductive StartOutcome : Type :=
| DisplayMediaRejected (err : JsError)
    (* getDisplayMedia rejects: permission denied, unsupported, other *)
| RecorderConstructionFailed (stream : MediaStream) (err : JsError)
    (* both [new MediaRecorder] attempts throw *)
| RecorderStartFailed (stream : MediaStream) (webm : bool) (err : JsError)
    (* [mediaRecorder.start(1000)] throws *)
| RecorderStarted (stream : MediaStream) (webm : bool).

(** The message computed in the [catch] block. *)
Definition errorMessage (err : JsError) : string :=
  if decide (err_name err = "NotAllowedError") then
    "Permission denied. Please allow screen sharing."
  else if decide (err_name err = "NotSupportedError") then
    "Screen recording not supported in this browser."
  else if decide (err_message err ≠ "") then
    "Error: " +:+ err_message err
  else "Failed to start background recording".

(** The [catch] block. *)
Definition start_catch (err : JsError) (s : Recorder) : Recorder :=
  set_backgroundStreamRef None
    (setBackgroundRecording false (setError (Some (errorMessage err)) s)).

(** The function up to its [await]: the statements that run before the
    request for the display stream is answered. *)
Definition startBackgroundRecording_request (s : Recorder) : Recorder :=
  setBufferSize 0
    (setBufferTime 0
       (set_chunkIndexRef 0
          (set_bufferChunksRef [] (setError None s)))).

(** The function from its [await] on. *)
Definition startBackgroundRecording_settle (o : StartOutcome) (s : Recorder)
  : Recorder :=
  match o with
  | DisplayMediaRejected err => start_catch err s
  | RecorderConstructionFailed stream err =>
      start_catch err (set_backgroundStreamRef (Some stream) s)
  | RecorderStartFailed stream webm err =>
      start_catch err
        (set_backgroundRecorderRef (Some (mkMediaRecorder stream webm))
           (set_backgroundStreamRef (Some stream) s))
  | RecorderStarted stream webm =>
      set_backgroundRecorderRef (Some (mkMediaRecorder stream webm))
        (set_backgroundStreamRef (Some stream) s)
  end.

Definition startBackgroundRecording (o : StartOutcome) (s : Recorder)
  : Recorder :=
  startBackgroundRecording_settle o (startBackgroundRecording_request s).

(** [mediaRecorder.onstart] *)
Definition onstart (s : Recorder) : Recorder :=
  toast {| title := "Background recording started";
           description := "Screen capture is now active in the background.";
           variant := default |}
    (setBackgroundRecording true s).

(** [mediaRecorder.onstop] *)
Definition onstop (s : Recorder) : Recorder :=
  toast {| title := "Background recording stopped";
           description := "Screen capture has been stopped.";
           variant := default |}
    (set_backgroundStreamRef None
       (setBufferSize 0 (setBufferTime 0 (setBackgroundRecording false s)))).

(** [mediaRecorder.onerror]; [message] is [error.message], empty when absent. *)
Definition onerror (message : string) (s : Recorder) : Recorder :=
  set_backgroundStreamRef None
    (setBackgroundRecording false
       (setError
          (Some ("Recording error: " +:+
                 (if decide (message ≠ "") then message else "Unknown error")))
          s)).

(** [displayStream.getVideoTracks()[0].onended] *)
Definition onended (s : Recorder) : Recorder :=
  setError (Some "Screen sharing was stopped by user")
    (setBackgroundRecording false s).

(** [stopBackgroundRecording]; the recorder's [stop()] answers later with a
    last [dataavailable] and a [stop] event, which are events of their own. *)
Definition stopBackgroundRecording (s : Recorder) : Recorder :=
  setBufferTime 0
    (setBufferSize 0
       (set_chunkIndexRef 0
          (set_bufferChunksRef []
             (set_backgroundStreamRef None
                (set_backgroundRecorderRef None s))))).

(** [clearBuffer] *)
Definition clearBuffer (s : Recorder) : Recorder :=
  toast {| title := "Buffer cleared";
           description := "Recording buffer has been cleared.";
           variant := default |}
    (setBufferTime 0
       (setBufferSize 0
          (set_chunkIndexRef 0 (set_bufferChunksRef [] s)))).

(** [updateSettings(key, value)].  [setSettings] takes effect at the next
    render; the clean-up called here is the one of the present render and
    reads the present [settings]. *)
Definition updateSettings (c : SettingChange) (now : Z) (s : Recorder)
  : Recorder :=
  let s1 :=
    if is_bufferDuration c && backgroundRecording s
    then cleanupOldBufferChunks (settings s) now s
    else s in
  setSettings (apply_change (settings s) c) s1.

(** ** Extraction: [captureLastMinutes] *)

(** [Array.prototype.sort(compareFn)]: a stable sort; [a] is placed before
    [b] when [compareFn(a, b) <= 0] and [a] came first. *)
Section array_sort.
Context {A : Type} (compareFn : A → A → Z).

Fixpoint sort_insert (x : A) (l : list A) : list A :=
  match l with
  | [] => [x]
  | y :: l' =>
      if decide (compareFn x y ≤ 0) then x :: l else y :: sort_insert x l'
  end.

Fixpoint array_sort (l : list A) : list A :=
  match l with
  | [] => []
  | x :: l' => sort_insert x (array_sort l')
  end.
End array_sort.

(** [[...bufferChunksRef.current].sort((a, b) => a.index - b.index)] *)
Definition sortedChunks (buf : list BufferChunk) : list BufferChunk :=
  array_sort (λ a b, index a - index b) buf.

(** The local [chunksToUse]; [minutes] is [None] for [null]. *)
Definition chunksToUse (minutes : option Z) (now : Z) (buf : list BufferChunk)
  : list BufferChunk :=
  match minutes with
  | None => sortedChunks buf
  | Some m =>
      let cutoffTime := now - m * 60 * 1000 in
      filter (λ chunk, timestamp chunk >= cutoffTime) (sortedChunks buf)
  end.

Definition toast_empty_buffer : Toast :=
  {| title := "No data available";
     description := "No recording data found in buffer.";
     variant := destructive |}.

Definition toast_not_enough (m : Z) : Toast :=
  {| title := "No data available";
     description := "Not enough buffer data for " +:+ pretty m +:+ " minute(s).";
     variant := destructive |}.

(** [minutes ? `${minutes} minute(s)` : "all available buffer"] *)
Definition duration_text (minutes : option Z) : string :=
  match minutes with
  | Some m =>
      if decide (m = 0) then "all available buffer"
      else pretty m +:+ " minute(s)"
  | None => "all available buffer"
  end.

Definition toast_saved (minutes : option Z) : Toast :=
  {| title := "Capture saved";
     description := "Last " +:+ duration_text minutes +:+ " captured successfully.";
     variant := default |}.

(** The function returns nothing; what it did is read off [videoURL] and the
    toast it raised.  The object URL of the previous artifact is revoked in
    the browser before [setVideoURL]. *)
Definition captureLastMinutes (minutes : option Z) (now : Z) (s : Recorder)
  : Recorder :=
  if decide (length (bufferChunksRef s) = 0%nat) then toast toast_empty_buffer s
  else
    match minutes, chunksToUse minutes now (bufferChunksRef s) with
    | Some m, [] => toast (toast_not_enough m) s
    | _, chunks =>
        let blobData := data <$> chunks in
        let blob := new_Blob blobData "video/webm" in
        toast (toast_saved minutes) (setVideoURL (Some blob) s)
    end.

(** ** The component as a transition system

    One event is one callback run to completion. *)
Inductive Event : Type :=
| EvStart (o : StartOutcome)
| EvOnStart
| EvData (event_data : option Blob) (now : Z)
| EvTick (cfg : RecordingSettings) (now : Z)
| EvCapture (minutes : option Z) (now : Z)
| EvClear
| EvUpdate (c : SettingChange) (now : Z)
| EvStop
| EvOnStop
| EvOnError (message : string)
| EvEnded.

Definition step (s : Recorder) (e : Event) : Recorder :=
  match e with
  | EvStart o => startBackgroundRecording o s
  | EvOnStart => onstart s
  | EvData d now => ondataavailable d now s
  | EvTick cfg now => bufferTimerTick cfg now s
  | EvCapture minutes now => captureLastMinutes minutes now s
  | EvClear => clearBuffer s
  | EvUpdate c now => updateSettings c now s
  | EvStop => stopBackgroundRecording s
  | EvOnStop => onstop s
  | EvOnError message => onerror message s
  | EvEnded => onended s
  end.

Definition run (tr : list Event) (s : Recorder) : Recorder := foldl step s tr.

(** The index an event gives to the chunk it appends, if it appends one. *)
Definition assigned (s : Recorder) (e : Event) : option Z :=
  match e with
  | EvData (Some d) _ => if decide (size d > 0) then Some (chunkIndexRef s) else None
  | _ => None
  end.

(** The indices given out along a trace, in order. *)
Fixpoint assignedLog (tr : list Event) (s : Recorder) : list Z :=
  match tr with
  | [] => []
  | e :: tr' =>
      match assigned s e with
      | Some i => i :: assignedLog tr' (step s e)
      | None => assignedLog tr' (step s e)
      end
  end.

(** The operations of a running session that the buffer sees between its
    start and its stop: appends, evictions, extractions, clears. *)
Definition session_event (e : Event) : bool :=
  match e with
  | EvData _ _ | EvTick _ _ | EvCapture _ _ | EvClear | EvUpdate _ _ => true
  | _ => false
  end.

Definition clears (e : Event) : bool :=
  match e with
  | EvClear | EvStart _ | EvStop => true
  | _ => false
  end.

(** ** Predicates used in the statements *)

(** The chunks an extraction is entitled to: all of them, or those not older
    than the cut-off. *)
Definition eligible (minutes : option Z) (now : Z) (c : BufferChunk) : Prop :=
  match minutes with
  | None => True
  | Some m => timestamp c >= now - m * 60 * 1000
  end.

#[local] Instance eligible_dec minutes now c : Decision (eligible minutes now c) :=
  match minutes as o return Decision (eligible o now c) with
  | None => left I
  | Some m => decide (timestamp c >= now - m * 60 * 1000)
  end.

(** A trace of appends: one [dataavailable] event per blob and arrival time. *)
Definition appends_trace (l : list (Blob * Z)) : list Event :=
  (λ a, EvData (Some a.1) a.2) <$> l.

(** The chunks that such appends store when the counter stands at [c0]. *)
Fixpoint appended (c0 : Z) (l : list (Blob * Z)) : list BufferChunk :=
  match l with
  | [] => []
  | a :: l' => {| data := a.1; timestamp := a.2; index := c0 |} :: appended (c0 + 1) l'
  end.

(** No stored chunk is empty. *)
Definition no_zero_size (s : Recorder) : Prop :=
  Forall (λ c, size (data c) > 0) (bufferChunksRef s).

(** The stored chunks carry strictly increasing indices, all below the
    counter. *)
Definition indices_increasing (s : Recorder) : Prop :=
  StronglySorted (λ a b, index a < index b) (bufferChunksRef s) ∧
  Forall (λ c, index c < chunkIndexRef s) (bufferChunksRef s).

(** The three ways in which a callback changes the buffer and its counter:
    it keeps or thins out the chunks, it empties the buffer and resets the
    counter, or it appends one non-empty chunk under the next index. *)
Inductive buffer_change (s s' : Recorder) : Prop :=
| change_kept :
    bufferChunksRef s' `sublist_of` bufferChunksRef s →
    chunkIndexRef s' = chunkIndexRef s →
    buffer_change s s'
| change_cleared :
    bufferChunksRef s' = [] →
    chunkIndexRef s' = 0 →
    buffer_change s s'
| change_appended (d : Blob) (now : Z) :
    size d > 0 →
    bufferChunksRef s' =
      bufferChunksRef s ++ [{| data := d; timestamp := now; index := chunkIndexRef s |}] →
    chunkIndexRef s' = chunkIndexRef s + 1 →
    buffer_change s s'.

(** ** Sample values *)

Definition blob1 : Blob := mkBlob [Byte.x01] "video/webm".
Definition blob2 : Blob := mkBlob [Byte.x02; Byte.x03] "video/webm".
Definition blob0 : Blob := mkBlob [] "video/webm".
Definition stream1 : MediaStream := mkStream "display-1".
Definition stream2 : MediaStream := mkStream "display-2".

(** A session that was started, is recording, and has received one chunk at
    time 0. *)
Definition recording_one_chunk : Recorder :=
  run [EvStart (RecorderStarted stream1 true); EvOnStart; EvData (Some blob1) 0]
    initial.


(** A session recording with a window of 5 minutes, holding one chunk
    stamped 0. *)
Definition recording_five_minutes : Recorder :=
  run [EvUpdate (Set_bufferDuration 5) 0;
       EvStart (RecorderStarted stream1 true); EvOnStart;
       EvData (Some blob1) 0]
    initial.

(** A session whose screen sharing the user has ended: the chunk received
    is still in the buffer, and no session is recording. *)
Definition sharing_ended : Recorder :=
  run [EvEnded] recording_one_chunk.

(** A session that has received two chunks, was cleared, and has received a
    third one. *)
Definition trace_with_clear : list Event :=
  [EvData (Some blob1) 0; EvData (Some blob2) 1000; EvClear;
   EvData (Some blob1) 2000].

(** Five chunks stamped 0 s to 4 s under the indices 0 to 4, in a session
    whose window is 1 minute. *)
Definition five_chunks : Recorder :=
  run (EvUpdate (Set_bufferDuration 1) 0
       :: EvStart (RecorderStarted stream1 true) :: EvOnStart
       :: appends_trace [(blob1, 0); (blob1, 1000); (blob1, 2000);
                         (blob2, 3000); (blob1, 4000)])
    initial.

(** ** Display helpers and tables *)

(** [String.prototype.padStart(targetLength, padString)], for a pad string of
    one character. *)
Fixpoint repeat_char (n : nat) (c : Ascii.ascii) : string :=
  match n with
  | O => ""
  | S n' => String c (repeat_char n' c)
  end.

Definition padStart (targetLength : nat) (padChar : Ascii.ascii) (s : string) : string :=
  repeat_char (targetLength - String.length s)%nat padChar +:+ s.

(** The digit of a number between 0 and 9. *)
Definition digit_char (d : Z) : Ascii.ascii :=
  Ascii.ascii_of_nat (48 + Z.to_nat d).

(** [formatTime(seconds)], for a whole number of seconds: [Math.floor] of the
    quotient is the floor division, [%] the remainder with the sign of the
    dividend; [digit_char 0] is the pad string "0". *)
Definition formatTime (seconds : Z) : string :=
  let mins := seconds `div` 60 in
  let secs := seconds `rem` 60 in
  padStart 2 (digit_char 0) (pretty mins) +:+ ":" +:+
  padStart 2 (digit_char 0) (pretty secs).

Record Resolution : Type := mkResolution { width : Z; height : Z }.

(** [qualitySettings] of [getVideoConstraints] *)
Definition qualitySettings (q : VideoQuality) : Resolution :=
  match q with
  | low => {| width := 1280; height := 720 |}
  | medium => {| width := 1920; height := 1080 |}
  | high => {| width := 2560; height := 1440 |}
  | ultra => {| width := 3840; height := 2160 |}
  end.

Record VideoConstraints : Type := mkVideoConstraints {
  cursor : string;
  constraint_frameRate : Z;
  constraint_width : Z;
  constraint_height : Z
}.

(** [getVideoConstraints], a closure over [settings]. *)
Definition getVideoConstraints (cfg : RecordingSettings) : VideoConstraints :=
  {| cursor := "always";
     constraint_frameRate := frameRate cfg;
     constraint_width := width (qualitySettings (videoQuality cfg));
     constraint_height := height (qualitySettings (videoQuality cfg)) |}.

Record DisplayMediaStreamConstraints : Type := mkDisplayConstraints {
  video : VideoConstraints;
  audio : bool;
  preferCurrentTab : option bool   (* absent unless set *)
}.

(** [getDisplayMediaConstraints] *)
Definition getDisplayMediaConstraints (cfg : RecordingSettings)
  : DisplayMediaStreamConstraints :=
  {| video := getVideoConstraints cfg;
     audio := includeSystemAudio cfg;
     preferCurrentTab :=
       match screenSource cfg with tab => Some true | _ => None end |}.

(** [getVideoBitrate] *)
Definition getVideoBitrate (cfg : RecordingSettings) : Z :=
  match videoQuality cfg with
  | low => 1000000
  | medium => 2500000
  | high => 5000000
  | ultra => 10000000
  end.

(** The tiers in the order of the settings menu. *)
Definition quality_tiers : list VideoQuality := [low; medium; high; ultra].

(** ** The capture buttons: [getAvailableCaptures]

    [availableTime] is a quotient of whole milliseconds, compared with 0.5,
    2.5 and 4.5; it is computed here in the rationals.  The quotients
    30000/1000/60, 150000/1000/60 and 270000/1000/60 are 0.5, 2.5 and 4.5
    exactly, and for a whole number of milliseconds the comparisons come out
    the same in double precision. *)
Definition availableTime (now : Z) (oldestChunk : BufferChunk) : Q :=
  (inject_Z (now - timestamp oldestChunk) / 1000 / 60)%Q.

Definition getAvailableCaptures (now : Z) (buf : list BufferChunk) : list Z :=
  if decide (length buf = 0%nat) then []
  else
    match array_sort (λ a b, timestamp a - timestamp b) buf with
    | [] => []
    | oldestChunk :: _ =>
        (if Qle_bool 0.5 (availableTime now oldestChunk) then [1] else []) ++
        (if Qle_bool 2.5 (availableTime now oldestChunk) then [3] else []) ++
        (if Qle_bool 4.5 (availableTime now oldestChunk) then [5] else [])
    end.

(** The age in milliseconds from which the button of [m] minutes is shown. *)
Definition tier_threshold (m : Z) : Z := (2 * m - 1) * 30000.

(** [blobData.reduce((sum, blob) => sum + blob.size, 0)] of
    [captureLastMinutes] *)
Definition totalSize (blobData : list Blob) : Z :=
  foldl (λ sum blob, sum + size blob) 0 blobData.

(** What [bufferChunksRef], [chunkIndexRef], [backgroundRecording] and
    [settings] hold: the part of the state the rolling buffer depends on. *)
Definition buffer_core (s : Recorder)
  : list BufferChunk * Z * bool * RecordingSettings :=
  (bufferChunksRef s, chunkIndexRef s, backgroundRecording s, settings s).

(** [MediaRecorder.state] *)
Inductive RecordingState : Type := rs_inactive | rs_recording | rs_paused.

(** ** The plain recorder: component [ScreenRecorder] *)

Module ScreenRecorder.

Record State : Type := mkState {
  (* useState *)
  recording : bool;
  paused : bool;
  videoURL : option Blob;
  error : option string;
  (* useRef *)
  mediaRecorderRef : option RecordingState;  (* the recorder, by its [state] *)
  chunksRef : list Blob;
  (* useToast *)
  toasts : list Toast
}.

Definition initial : State := mkState false false None None None [] [].

(** How the [try] block of [startRecording] ends. *)
Inductive StartResult : Type :=
| DisplayRejected    (* getDisplayMedia rejects *)
| RecorderThrew      (* [new MediaRecorder(stream)] throws *)
| StartThrew         (* [mediaRecorder.start(200)] throws *)
| Started.

Definition start_failed : string :=
  "Failed to start recording. Please make sure you've granted the necessary permissions.".

(** [startRecording] up to its [await]. *)
Definition startRecording_request (s : State) : State :=
  mkState (recording s) (paused s) None None (mediaRecorderRef s) [] (toasts s).

(** [startRecording] from its [await] on. *)
Definition startRecording_settle (o : StartResult) (s : State) : State :=
  match o with
  | DisplayRejected | RecorderThrew =>
      mkState (recording s) (paused s) (videoURL s) (Some start_failed)
        (mediaRecorderRef s) (chunksRef s) (toasts s)
  | StartThrew =>
      mkState (recording s) (paused s) (videoURL s) (Some start_failed)
        (Some rs_inactive) (chunksRef s) (toasts s)
  | Started =>
      mkState true (paused s) (videoURL s) (error s)
        (Some rs_recording) (chunksRef s)
        (toasts s ++ [{| title := "Recording started";
                         description := "Your screen is now being recorded.";
                         variant := default |}])
  end.

Definition startRecording (o : StartResult) (s : State) : State :=
  startRecording_settle o (startRecording_request s).

(** [mediaRecorder.ondataavailable] *)
Definition ondataavailable (e_data : Blob) (s : State) : State :=
  if decide (size e_data > 0) then
    mkState (recording s) (paused s) (videoURL s) (error s)
      (mediaRecorderRef s) (chunksRef s ++ [e_data]) (toasts s)
  else s.

(** [mediaRecorder.onstop] *)
Definition onstop (s : State) : State :=
  let blob := new_Blob (chunksRef s) "video/webm" in
  mkState false false (Some blob) (error s) (mediaRecorderRef s) (chunksRef s)
    (toasts s ++ [{| title := "Recording completed";
                     description := "Your screen recording is ready to download.";
                     variant := default |}]).

(** [mediaRecorder.onerror] *)
Definition onerror (s : State) : State :=
  mkState false false (videoURL s) (Some "Recording error occurred")
    (mediaRecorderRef s) (chunksRef s) (toasts s).

(** [stopRecording]: the recorder becomes inactive; its last [dataavailable]
    and its [stop] event follow as events of their own. *)
Definition stopRecording (s : State) : State :=
  match mediaRecorderRef s with
  | Some _ =>
      mkState (recording s) (paused s) (videoURL s) (error s)
        (Some rs_inactive) (chunksRef s) (toasts s)
  | None => s
  end.

(** [pauseRecording] *)
Definition pauseRecording (s : State) : State :=
  match mediaRecorderRef s with
  | Some rs_recording =>
      mkState (recording s) true (videoURL s) (error s)
        (Some rs_paused) (chunksRef s)
        (toasts s ++ [{| title := "Recording paused";
                         description := "Your screen recording has been paused.";
                         variant := default |}])
  | _ => s
  end.

(** [resumeRecording] *)
Definition resumeRecording (s : State) : State :=
  match mediaRecorderRef s with
  | Some rs_paused =>
      mkState (recording s) false (videoURL s) (error s)
        (Some rs_recording) (chunksRef s)
        (toasts s ++ [{| title := "Recording resumed";
                         description := "Your screen recording has been resumed.";
                         variant := default |}])
  | _ => s
  end.

Inductive Event : Type :=
| EvStartRecording (o : StartResult)
| EvData (e_data : Blob)
| EvOnStop
| EvOnError
| EvStopRecording
| EvPauseRecording
| EvResumeRecording.

Definition step (s : State) (e : Event) : State :=
  match e with
  | EvStartRecording o => startRecording o s
  | EvData d => ondataavailable d s
  | EvOnStop => onstop s
  | EvOnError => onerror s
  | EvStopRecording => stopRecording s
  | EvPauseRecording => pauseRecording s
  | EvResumeRecording => resumeRecording s
  end.

Definition run (tr : list Event) (s : State) : State := foldl step s tr.

(** The blobs delivered along a trace, in order. *)
Definition delivered (tr : list Event) : list Blob :=
  omap (λ e, match e with EvData d => Some d | _ => None end) tr.

Definition starts (e : Event) : bool :=
  match e with EvStartRecording _ => true | _ => false end.

End ScreenRecorder.

(** ** The manual recorder of [AdvancedScreenRecorder]

    The manual pipeline keeps its own recorder, chunks and timer; [videoURL],
    [error], [settings] and the toasts are those of the component, which the
    record [Recorder] of the background pipeline holds.  [audioContextRef] is
    never assigned in the component, so the [close()] calls guarded by it do
    not run and the ref is left out. *)

Module Advanced.

Record MediaRecorderOptions : Type := mkOptions {
  mimeType : string;
  audioBitsPerSecond : Z;
  videoBitsPerSecond : Z
}.

(** The manual [MediaRecorder]: the options it was created with, and its
    [state]. *)
Record ManualRecorder : Type := mkManualRecorder {
  recorder_options : MediaRecorderOptions;
  recorder_state : RecordingState
}.

Record State : Type := mkState {
  shared : Recorder;
  (* useState *)
  recording : bool;
  paused : bool;
  recordingTime : Z;
  (* useRef *)
  mediaRecorderRef : option ManualRecorder;
  chunksRef : list Blob
}.

Definition initial : State := mkState initial false false 0 None [].

(** The outcome of the request for the microphone, asked for only when
    [settings.includeMicrophone] is set. *)
Inductive MicResult : Type := MicGranted | MicFailed.

(** How the [try] block of [startRecording] ends. *)
Inductive StartResult : Type :=
| DisplayRejected                    (* getDisplayMedia rejects *)
| RecorderThrew (mic : MicResult)    (* [new MediaRecorder(finalStream, options)] throws *)
| StartThrew (mic : MicResult)       (* [mediaRecorder.start(1000)] throws *)
| Started (mic : MicResult).

Definition start_failed : string :=
  "Failed to start recording. Please make sure you've granted the necessary permissions.".

Definition screenSource_text (v : ScreenSource) : string :=
  match v with screen => "screen" | window => "window" | tab => "tab" end.

Definition videoQuality_text (v : VideoQuality) : string :=
  match v with
  | low => "low" | medium => "medium" | high => "high" | ultra => "ultra"
  end.

(** The [options] of the manual recorder. *)
Definition recorderOptions (cfg : RecordingSettings) : MediaRecorderOptions :=
  {| mimeType := "video/webm";
     audioBitsPerSecond := audioBitrate cfg * 1000;
     videoBitsPerSecond := getVideoBitrate cfg |}.

(** The inner [try] of [startRecording]: a failed microphone is reported and
    the recording goes on with the display stream alone. *)
Definition microphone (cfg : RecordingSettings) (mic : MicResult) (sh : Recorder)
  : Recorder :=
  if includeMicrophone cfg then
    match mic with
    | MicGranted => sh
    | MicFailed =>
        toast {| title := "Microphone access failed";
                 description := "Recording will continue without microphone audio.";
                 variant := destructive |} sh
    end
  else sh.

(** [startRecording] up to its [await]. *)
Definition startRecording_request (a : State) : State :=
  mkState (setVideoURL None (setError None (shared a)))
    (recording a) (paused a) 0 (mediaRecorderRef a) [].

(** [startRecording] from its [await] on; [cfg] is the [settings] of the
    render the function belongs to. *)
Definition startRecording_settle (cfg : RecordingSettings) (o : StartResult)
  (a : State) : State :=
  match o with
  | DisplayRejected =>
      mkState (setError (Some start_failed) (shared a))
        (recording a) (paused a) (recordingTime a) (mediaRecorderRef a) (chunksRef a)
  | RecorderThrew mic =>
      mkState (setError (Some start_failed) (microphone cfg mic (shared a)))
        (recording a) (paused a) (recordingTime a) (mediaRecorderRef a) (chunksRef a)
  | StartThrew mic =>
      mkState (setError (Some start_failed) (microphone cfg mic (shared a)))
        (recording a) (paused a) (recordingTime a)
        (Some (mkManualRecorder (recorderOptions cfg) rs_inactive)) (chunksRef a)
  | Started mic =>
      mkState
        (toast {| title := "Recording started";
                  description :=
                    "Recording " +:+ screenSource_text (screenSource cfg) +:+
                    " with " +:+ videoQuality_text (videoQuality cfg) +:+ " quality.";
                  variant := default |}
           (microphone cfg mic (shared a)))
        true (paused a) (recordingTime a)
        (Some (mkManualRecorder (recorderOptions cfg) rs_recording)) (chunksRef a)
  end.

Definition startRecording (o : StartResult) (a : State) : State :=
  startRecording_settle (settings (shared a)) o (startRecording_request a).

(** [mediaRecorder.ondataavailable] of the manual recorder *)
Definition ondataavailable (e_data : Blob) (a : State) : State :=
  if decide (size e_data > 0) then
    mkState (shared a) (recording a) (paused a) (recordingTime a)
      (mediaRecorderRef a) (chunksRef a ++ [e_data])
  else a.

(** [mediaRecorder.onstop] of the manual recorder *)
Definition onstop (a : State) : State :=
  let blob := new_Blob (chunksRef a) "video/webm" in
  mkState
    (toast {| title := "Recording completed";
              description := "Your screen recording is ready to download.";
              variant := default |}
       (setVideoURL (Some blob) (shared a)))
    false false 0 (mediaRecorderRef a) (chunksRef a).

(** [mediaRecorder.onerror] of the manual recorder *)
Definition onerror (a : State) : State :=
  mkState (setError (Some "Recording error occurred") (shared a))
    false false (recordingTime a) (mediaRecorderRef a) (chunksRef a).

Definition set_state (st : RecordingState) (r : ManualRecorder) : ManualRecorder :=
  mkManualRecorder (recorder_options r) st.

(** [stopRecording] *)
Definition stopRecording (a : State) : State :=
  match mediaRecorderRef a with
  | Some r =>
      mkState (shared a) (recording a) (paused a) (recordingTime a)
        (Some (set_state rs_inactive r)) (chunksRef a)
  | None => a
  end.

(** [pauseRecording] *)
Definition pauseRecording (a : State) : State :=
  match mediaRecorderRef a with
  | Some r =>
      match recorder_state r with
      | rs_recording =>
          mkState
            (toast {| title := "Recording paused";
                      description := "Your screen recording has been paused.";
                      variant := default |} (shared a))
            (recording a) true (recordingTime a)
            (Some (set_state rs_paused r)) (chunksRef a)
      | _ => a
      end
  | None => a
  end.

(** [resumeRecording] *)
Definition resumeRecording (a : State) : State :=
  match mediaRecorderRef a with
  | Some r =>
      match recorder_state r with
      | rs_paused =>
          mkState
            (toast {| title := "Recording resumed";
                      description := "Your screen recording has been resumed.";
                      variant := default |} (shared a))
            (recording a) false (recordingTime a)
            (Some (set_state rs_recording r)) (chunksRef a)
      | _ => a
      end
  | None => a
  end.

(** The callback of the one-second interval of the manual timer. *)
Definition recordingTimerTick (a : State) : State :=
  mkState (shared a) (recording a) (paused a) (recordingTime a + 1)
    (mediaRecorderRef a) (chunksRef a).

(** One callback of the component: one of the background pipeline, acting on
    the shared record, or one of the manual pipeline.  The manual timer runs
    only while [recording && !paused], where its effect installs it. *)
Inductive Action : Type :=
| Background (e : Event)
| StartRecording (o : StartResult)
| Data (e_data : Blob)
| OnStop
| OnError
| StopRecording
| PauseRecording
| ResumeRecording
| TimerTick.

Definition act (a : State) (x : Action) : State :=
  match x with
  | Background e =>
      mkState (step (shared a) e) (recording a) (paused a) (recordingTime a)
        (mediaRecorderRef a) (chunksRef a)
  | StartRecording o => startRecording o a
  | Data d => ondataavailable d a
  | OnStop => onstop a
  | OnError => onerror a
  | StopRecording => stopRecording a
  | PauseRecording => pauseRecording a
  | ResumeRecording => resumeRecording a
  | TimerTick => if recording a && negb (paused a) then recordingTimerTick a else a
  end.

Definition play (tr : list Action) (a : State) : State := foldl act a tr.

(** The callbacks of the background pipeline in a trace, in order. *)
Definition background_events (tr : list Action) : list Event :=
  omap (λ x, match x with Background e => Some e | _ => None end) tr.

(** The blobs delivered to the manual recorder along a trace, in order. *)
Definition delivered (tr : list Action) : list Blob :=
  omap (λ x, match x with Data d => Some d | _ => None end) tr.

Definition starts (x : Action) : bool :=
  match x with StartRecording _ => true | _ => false end.

End Advanced.

(** The clock values read by the [dataavailable] callbacks of a trace, in
    order. *)
Definition data_times (tr : list Event) : list Z :=
  omap (λ e, match e with EvData _ now => Some now | _ => None end) tr.

(** The chunks are stored in the order of their timestamps. *)
Definition timestamps_ordered (buf : list BufferChunk) : Prop :=
  StronglySorted (λ a b, timestamp a ≤ timestamp b) buf.

(** * Properties *)

(** ** The stable sort *)

Section array_sort_properties.
Context {A : Type} (compareFn : A → A → Z).

Lemma sort_insert_Permutation (x : A) (l : list A) :
  sort_insert compareFn x l ≡ₚ x :: l.
Proof.
  induction l as [|y l IH]; simpl; [done|].
  case_decide; [done|].
  rewrite IH. apply Permutation_swap.
Qed.

Lemma array_sort_Permutation (l : list A) : array_sort compareFn l ≡ₚ l.
Proof.
  induction l as [|x l IH]; simpl; [done|].
  by rewrite sort_insert_Permutation, IH.
Qed.

(** On a list whose head is already in place, insertion is [cons]. *)
Lemma sort_insert_head (x : A) (l : list A) :
  Forall (λ y, compareFn x y ≤ 0) l → sort_insert compareFn x l = x :: l.
Proof.
  destruct l as [|y l]; simpl; [done|].
  intros Hall. apply Forall_cons_1 in Hall as [Hxy _].
  by rewrite decide_True.
Qed.

Lemma array_sort_sorted_id (l : list A) :
  StronglySorted (λ a b, compareFn a b ≤ 0) l → array_sort compareFn l = l.
Proof.
  induction 1 as [|x l Hsorted IH Hall]; simpl; [done|].
  rewrite IH. by apply sort_insert_head.
Qed.

Hypothesis compare_total : ∀ a b, compareFn a b ≤ 0 ∨ compareFn b a ≤ 0.
Hypothesis compare_trans :
  ∀ a b c, compareFn a b ≤ 0 → compareFn b c ≤ 0 → compareFn a c ≤ 0.

Lemma sort_insert_sorted (x : A) (l : list A) :
  StronglySorted (λ a b, compareFn a b ≤ 0) l →
  StronglySorted (λ a b, compareFn a b ≤ 0) (sort_insert compareFn x l).
Proof.
  induction 1 as [|y l Hsorted IH Hall]; simpl.
  - repeat constructor.
  - case_decide as Hxy.
    + constructor; [by constructor|].
      constructor; [done|].
      eapply Forall_impl; [exact Hall|]. intros z Hyz. by eapply compare_trans.
    + constructor; [done|].
      rewrite sort_insert_Permutation. constructor; [|done].
      destruct (compare_total x y); [done|done].
Qed.

Lemma array_sort_sorted (l : list A) :
  StronglySorted (λ a b, compareFn a b ≤ 0) (array_sort compareFn l).
Proof.
  induction l as [|x l IH]; simpl; [constructor|].
  by apply sort_insert_sorted.
Qed.
End array_sort_properties.

Lemma StronglySorted_weaken {A : Type} (R1 R2 : relation A) (l : list A) :
  (∀ a b, R1 a b → R2 a b) → StronglySorted R1 l → StronglySorted R2 l.
Proof.
  intros Himpl. induction 1 as [|x l Hsorted IH Hall]; constructor; [done|].
  eapply Forall_impl; [exact Hall|]. auto.
Qed.

Lemma StronglySorted_sublist {A : Type} (R : relation A) (l k : list A) :
  l `sublist_of` k → StronglySorted R k → StronglySorted R l.
Proof.
  induction 1 as [|x l k Hsub IH|x l k Hsub IH]; intros Hk.
  - constructor.
  - apply StronglySorted_cons in Hk as [Hall Hk].
    constructor; [by apply IH|].
    apply Forall_forall. intros z Hz.
    rewrite Forall_forall in Hall. apply Hall. by eapply elem_of_sublist.
  - apply StronglySorted_cons in Hk as [_ Hk]. by apply IH.
Qed.

Lemma sortedChunks_Permutation (buf : list BufferChunk) :
  sortedChunks buf ≡ₚ buf.
Proof. apply array_sort_Permutation. Qed.

Lemma sortedChunks_sorted (buf : list BufferChunk) :
  StronglySorted (λ a b, index a ≤ index b) (sortedChunks buf).
Proof.
  eapply StronglySorted_weaken; [|apply array_sort_sorted]; simpl; intros; lia.
Qed.

Lemma sortedChunks_id (buf : list BufferChunk) :
  StronglySorted (λ a b, index a ≤ index b) buf → sortedChunks buf = buf.
Proof.
  intros Hs. apply array_sort_sorted_id.
  eapply StronglySorted_weaken; [|exact Hs]. simpl; intros; lia.
Qed.

Lemma chunksToUse_sublist (minutes : option Z) (now : Z) (buf : list BufferChunk) :
  chunksToUse minutes now buf `sublist_of` sortedChunks buf.
Proof. destruct minutes; simpl; [apply sublist_filter|done]. Qed.

Lemma chunksToUse_sorted (minutes : option Z) (now : Z) (buf : list BufferChunk) :
  StronglySorted (λ a b, index a ≤ index b) (chunksToUse minutes now buf).
Proof.
  eapply StronglySorted_sublist; [apply chunksToUse_sublist|].
  apply sortedChunks_sorted.
Qed.

Lemma chunksToUse_Permutation (minutes : option Z) (now : Z) (buf : list BufferChunk) :
  chunksToUse minutes now buf ≡ₚ filter (eligible minutes now) buf.
Proof.
  destruct minutes as [m|]; simpl.
  - by rewrite sortedChunks_Permutation.
  - rewrite sortedChunks_Permutation.
    induction buf as [|c buf IH]; [done|].
    rewrite filter_cons_True by done. by f_equiv.
Qed.

(** ** Retention *)

Lemma cleanup_buffer (cfg : RecordingSettings) (now : Z) (s : Recorder) :
  bufferChunksRef (cleanupOldBufferChunks cfg now s) =
  filter (λ chunk, now - timestamp chunk ≤ maxAge cfg) (bufferChunksRef s).
Proof. reflexivity. Qed.

(** C7. After [cleanupOldBufferChunks] with clock value [now] and window
    [maxAge cfg], every chunk kept satisfies [now - timestamp <= maxAge], every
    chunk of the old buffer that is no longer there had
    [now - timestamp > maxAge], and the chunks kept stand in the order they
    had before (they are a sublist of the old buffer). *)
Theorem cleanup_retention (cfg : RecordingSettings) (now : Z) (s : Recorder) :
  let kept := bufferChunksRef (cleanupOldBufferChunks cfg now s) in
  (∀ c, c ∈ kept → now - timestamp c ≤ maxAge cfg) ∧
  (∀ c, c ∈ bufferChunksRef s → c ∉ kept → now - timestamp c > maxAge cfg) ∧
  kept `sublist_of` bufferChunksRef s.
Proof.
  cbv zeta. rewrite cleanup_buffer. split_and!.
  - intros c Hc. by apply list_elem_of_filter in Hc as [Hlive _].
  - intros c Hin Hgone.
    destruct (decide (now - timestamp c ≤ maxAge cfg)) as [Hlive|Hold]; [|lia].
    exfalso. apply Hgone. by apply list_elem_of_filter.
  - apply sublist_filter.
Qed.

Lemma cleanup_retention_witness :
  let kept := bufferChunksRef (cleanupOldBufferChunks (settings five_chunks) 62500 five_chunks) in
  index <$> kept = [3; 4] ∧
  (∀ c, c ∈ kept → 62500 - timestamp c ≤ 60000) ∧
  kept `sublist_of` bufferChunksRef five_chunks.
Proof.
  destruct (cleanup_retention (settings five_chunks) 62500 five_chunks)
    as (Hkept & _ & Horder).
  split_and!; [reflexivity|exact Hkept|exact Horder].
Defined.

(** The window closes 60 s before the clock: of five chunks stamped 0 s to
    4 s, a sweep at 62.5 s keeps the two stamped 3 s and 4 s, and capturing
    all then assembles these two in the order of their indices. *)
Example sweep_then_capture_all :
  let s := cleanupOldBufferChunks (settings five_chunks) 62500 five_chunks in
  index <$> chunksToUse None 62500 (bufferChunksRef s) = [3; 4] ∧
  videoURL (captureLastMinutes None 62500 s) = Some (new_Blob [blob2; blob1] "video/webm").
Proof. cbv zeta. split; reflexivity. Qed.

(** C9. Eviction is idempotent: a second [cleanupOldBufferChunks] with the
    same clock value and the same window leaves the state, and so the buffer,
    as the first call left it. *)
Theorem cleanup_idempotent (cfg : RecordingSettings) (now : Z) (s : Recorder) :
  cleanupOldBufferChunks cfg now (cleanupOldBufferChunks cfg now s) =
  cleanupOldBufferChunks cfg now s.
Proof.
  unfold cleanupOldBufferChunks, set_bufferChunksRef; simpl. f_equal.
  rewrite list_filter_filter. apply list_filter_iff. tauto.
Qed.

(** ** How each callback changes the buffer *)

Lemma ondataavailable_change (event_data : option Blob) (now : Z) (s : Recorder) :
  buffer_change s (ondataavailable event_data now s).
Proof.
  unfold ondataavailable. destruct event_data as [d|]; [|by apply change_kept].
  case_decide as Hsize; [|by apply change_kept].
  by eapply change_appended.
Qed.

Lemma captureLastMinutes_buffer (minutes : option Z) (now : Z) (s : Recorder) :
  bufferChunksRef (captureLastMinutes minutes now s) = bufferChunksRef s ∧
  chunkIndexRef (captureLastMinutes minutes now s) = chunkIndexRef s.
Proof.
  unfold captureLastMinutes. case_decide; [done|].
  destruct minutes as [m|]; [|done].
  by destruct (chunksToUse (Some m) now (bufferChunksRef s)).
Qed.

Lemma startBackgroundRecording_buffer (o : StartOutcome) (s : Recorder) :
  bufferChunksRef (startBackgroundRecording o s) = [] ∧
  chunkIndexRef (startBackgroundRecording o s) = 0.
Proof. by destruct o. Qed.

Lemma step_change (s : Recorder) (e : Event) : buffer_change s (step s e).
Proof.
  destruct e as [o| |d now|cfg now|minutes now| |c now| | |message|]; simpl.
  - apply change_cleared; apply startBackgroundRecording_buffer.
  - by apply change_kept.
  - apply ondataavailable_change.
  - apply change_kept; [apply sublist_filter|done].
  - destruct (captureLastMinutes_buffer minutes now s) as [Hbuf Hidx].
    apply change_kept; [by rewrite Hbuf|done].
  - by apply change_cleared.
  - unfold updateSettings.
    destruct (is_bufferDuration c && backgroundRecording s);
      (apply change_kept; [|done]); simpl; [apply sublist_filter|done].
  - by apply change_cleared.
  - by apply change_kept.
  - by apply change_kept.
  - by apply change_kept.
Qed.

Lemma run_cons (tr : list Event) (e : Event) (s : Recorder) :
  run (e :: tr) s = run tr (step s e).
Proof. reflexivity. Qed.

(** An invariant of the buffer that every kind of change keeps is kept by
    every trace. *)
Lemma run_invariant (P : Recorder → Prop) :
  (∀ s s', buffer_change s s' → P s → P s') →
  ∀ tr s, P s → P (run tr s).
Proof.
  intros Hkeep tr. induction tr as [|e tr IH]; intros s Hs; [done|].
  rewrite run_cons. apply IH. eapply Hkeep; [apply step_change|done].
Qed.

Lemma no_zero_size_change (s s' : Recorder) :
  buffer_change s s' → no_zero_size s → no_zero_size s'.
Proof.
  unfold no_zero_size. intros [Hsub _|Hnil _|d now Hsize Happ _] Hs.
  - apply Forall_forall. intros c Hc. rewrite Forall_forall in Hs.
    apply Hs. by eapply elem_of_sublist.
  - rewrite Hnil. constructor.
  - rewrite Happ. apply Forall_app. split; [done|]. by repeat constructor.
Qed.

Lemma indices_increasing_change (s s' : Recorder) :
  buffer_change s s' → indices_increasing s → indices_increasing s'.
Proof.
  unfold indices_increasing.
  intros [Hsub Hidx|Hnil _|d now Hsize Happ Hidx] [Hsorted Hbelow].
  - split; [by eapply StronglySorted_sublist|].
    rewrite Hidx. apply Forall_forall. intros c Hc.
    rewrite Forall_forall in Hbelow. apply Hbelow. by eapply elem_of_sublist.
  - rewrite Hnil. split; constructor.
  - rewrite Happ, Hidx. split.
    + apply StronglySorted_app_2; [|done|repeat constructor].
      intros a b Ha Hb. apply list_elem_of_singleton in Hb as ->. simpl.
      rewrite Forall_forall in Hbelow. by apply Hbelow.
    + apply Forall_app. split.
      * eapply Forall_impl; [exact Hbelow|]. simpl; intros; lia.
      * repeat constructor. simpl. lia.
Qed.

(** ** Ingestion *)

Lemma ondataavailable_positive (d : Blob) (now : Z) (s : Recorder) :
  size d > 0 →
  bufferChunksRef (ondataavailable (Some d) now s) =
    bufferChunksRef s ++ [{| data := d; timestamp := now; index := chunkIndexRef s |}] ∧
  chunkIndexRef (ondataavailable (Some d) now s) = chunkIndexRef s + 1.
Proof. intros Hsize. unfold ondataavailable. by rewrite decide_True. Qed.

(** C8. A [dataavailable] event without data or with a blob of size zero
    leaves the whole state as it was, so the buffer, its length and the
    counter are unchanged; an event with a blob of positive size makes the
    buffer one chunk longer (and moves the counter by one); and along every
    trace of callbacks, from the initial state or from any state without an
    empty chunk, the buffer holds no chunk of size zero. *)
Theorem no_zero_size_segment :
  (∀ now s, ondataavailable None now s = s) ∧
  (∀ d now s, size d = 0 → ondataavailable (Some d) now s = s) ∧
  (∀ d now s, size d > 0 →
     length (bufferChunksRef (ondataavailable (Some d) now s)) =
       S (length (bufferChunksRef s)) ∧
     chunkIndexRef (ondataavailable (Some d) now s) = chunkIndexRef s + 1) ∧
  (∀ tr, no_zero_size (run tr initial)) ∧
  (∀ tr s, no_zero_size s → no_zero_size (run tr s)).
Proof.
  split_and!.
  - done.
  - intros d now s Hzero. unfold ondataavailable. rewrite decide_False; [done|lia].
  - intros d now s Hsize.
    destruct (ondataavailable_positive d now s Hsize) as [-> ->].
    split; [|done]. rewrite length_app. simpl. lia.
  - intros tr. apply run_invariant; [apply no_zero_size_change|constructor].
  - apply run_invariant, no_zero_size_change.
Qed.

Lemma no_zero_size_segment_witness :
  ondataavailable (Some blob0) 500 recording_one_chunk = recording_one_chunk ∧
  length (bufferChunksRef (ondataavailable (Some blob2) 1000 recording_one_chunk)) = 2%nat ∧
  no_zero_size
    (run [EvData (Some blob0) 500; EvTick initial_settings 1000; EvData (Some blob2) 1000]
       recording_one_chunk).
Proof.
  destruct no_zero_size_segment as (_ & Hzero & Hpos & _ & Hinv).
  split_and!.
  - apply Hzero. reflexivity.
  - apply (Hpos blob2 1000 recording_one_chunk). reflexivity.
  - apply Hinv. unfold no_zero_size. vm_compute. by repeat constructor.
Defined.

Lemma appended_data (c0 : Z) (l : list (Blob * Z)) :
  data <$> appended c0 l = l.*1.
Proof.
  revert c0. induction l as [|a l IH]; intros c0; simpl; [done|]. by rewrite IH.
Qed.

Lemma appended_length (c0 : Z) (l : list (Blob * Z)) :
  length (appended c0 l) = length l.
Proof.
  revert c0. induction l as [|a l IH]; intros c0; simpl; [done|]. by rewrite IH.
Qed.

Lemma appended_lower_bound (c0 : Z) (l : list (Blob * Z)) :
  Forall (λ c, c0 ≤ index c) (appended c0 l).
Proof.
  revert c0. induction l as [|a l IH]; intros c0; simpl; constructor; simpl; [lia|].
  eapply Forall_impl; [apply (IH (c0 + 1))|]. simpl; intros; lia.
Qed.

Lemma appended_sorted (c0 : Z) (l : list (Blob * Z)) :
  StronglySorted (λ a b, index a < index b) (appended c0 l).
Proof.
  revert c0. induction l as [|a l IH]; intros c0; simpl; constructor; [apply IH|].
  eapply Forall_impl; [apply (appended_lower_bound (c0 + 1))|]. simpl; intros; lia.
Qed.

Lemma run_appends (l : list (Blob * Z)) (s : Recorder) :
  Forall (λ a, size a.1 > 0) l →
  bufferChunksRef (run (appends_trace l) s) =
    bufferChunksRef s ++ appended (chunkIndexRef s) l ∧
  chunkIndexRef (run (appends_trace l) s) = chunkIndexRef s + Z.of_nat (length l).
Proof.
  intros Hpos. revert s.
  induction Hpos as [|a l Hsize Hpos IH]; intros s.
  - simpl. rewrite app_nil_r. split; [done|lia].
  - change (appends_trace (a :: l))
      with (EvData (Some a.1) a.2 :: appends_trace l).
    rewrite run_cons.
    change (step s (EvData (Some a.1) a.2))
      with (ondataavailable (Some a.1) a.2 s).
    destruct (ondataavailable_positive a.1 a.2 s Hsize) as [Hbuf Hidx].
    destruct (IH (ondataavailable (Some a.1) a.2 s)) as [Hbuf' Hidx'].
    rewrite Hbuf', Hidx', Hbuf, Hidx. simpl. rewrite <- app_assoc. split; [done|lia].
Qed.

(** ** Extraction *)

Lemma captureLastMinutes_saved (minutes : option Z) (now : Z) (s : Recorder) :
  chunksToUse minutes now (bufferChunksRef s) ≠ [] →
  captureLastMinutes minutes now s =
  toast (toast_saved minutes)
    (setVideoURL
       (Some (new_Blob (data <$> chunksToUse minutes now (bufferChunksRef s)) "video/webm"))
       s).
Proof.
  intros Hused. unfold captureLastMinutes.
  case_decide as Hlen.
  - exfalso. apply Hused. apply nil_length_inv in Hlen. rewrite Hlen.
    by destruct minutes.
  - destruct minutes as [m|]; [|done].
    by destruct (chunksToUse (Some m) now (bufferChunksRef s)).
Qed.

Lemma captureLastMinutes_artifact (minutes : option Z) (now : Z) (s : Recorder) :
  chunksToUse minutes now (bufferChunksRef s) ≠ [] →
  videoURL (captureLastMinutes minutes now s) =
  Some (new_Blob (data <$> chunksToUse minutes now (bufferChunksRef s)) "video/webm").
Proof. intros Hused. by rewrite captureLastMinutes_saved. Qed.

(** C1. Whatever the order of the chunks in the buffer, the chunks that
    [captureLastMinutes] assembles are in ascending order of [index], and
    they are the eligible chunks of the buffer, each as many times as it is
    stored; when there is one at least, the artifact is the concatenation of
    their data in that order.  In particular, after N > 0 appends of
    non-empty blobs to an empty buffer, with nothing evicted, capturing all
    uses exactly the N chunks in the order of the appends, and the artifact
    is the concatenation of the N blobs in that order. *)
Theorem captureLastMinutes_ordered :
  (∀ minutes now s,
     let used := chunksToUse minutes now (bufferChunksRef s) in
     StronglySorted (λ a b, index a ≤ index b) used ∧
     used ≡ₚ filter (eligible minutes now) (bufferChunksRef s) ∧
     (used ≠ [] →
      videoURL (captureLastMinutes minutes now s) =
        Some (new_Blob (data <$> used) "video/webm"))) ∧
  (∀ (appends : list (Blob * Z)) now s,
     bufferChunksRef s = [] →
     appends ≠ [] →
     Forall (λ a, size a.1 > 0) appends →
     let s' := run (appends_trace appends) s in
     chunksToUse None now (bufferChunksRef s') = bufferChunksRef s' ∧
     length (bufferChunksRef s') = length appends ∧
     data <$> bufferChunksRef s' = appends.*1 ∧
     videoURL (captureLastMinutes None now s') =
       Some (new_Blob appends.*1 "video/webm")).
Proof.
  split.
  - intros minutes now s used. split_and!.
    + apply chunksToUse_sorted.
    + apply chunksToUse_Permutation.
    + apply captureLastMinutes_artifact.
  - intros appends now s Hempty Hsome Hpos s'.
    destruct (run_appends appends s Hpos) as [Hbuf _].
    rewrite Hempty in Hbuf. simpl in Hbuf. fold s' in Hbuf.
    assert (chunksToUse None now (bufferChunksRef s') = bufferChunksRef s') as Hused.
    { simpl. apply sortedChunks_id. rewrite Hbuf.
      eapply StronglySorted_weaken; [|apply appended_sorted]. simpl; intros; lia. }
    split_and!; [done|by rewrite Hbuf, appended_length|by rewrite Hbuf, appended_data|].
    rewrite captureLastMinutes_artifact.
    + by rewrite Hused, Hbuf, appended_data.
    + rewrite Hused, Hbuf. destruct appends; [done|discriminate].
Qed.

Lemma captureLastMinutes_ordered_witness :
  let s' := run (appends_trace [(blob1, 0); (blob2, 1000)]) initial in
  length (bufferChunksRef s') = 2%nat ∧
  videoURL (captureLastMinutes None 2000 s') =
    Some (mkBlob [Byte.x01; Byte.x02; Byte.x03] "video/webm").
Proof.
  destruct captureLastMinutes_ordered as [_ Happends].
  destruct (Happends [(blob1, 0); (blob2, 1000)] 2000 initial)
    as (_ & Hlen & _ & Hurl).
  - reflexivity.
  - discriminate.
  - repeat constructor.
  - split; [exact Hlen|exact Hurl].
Defined.

Lemma filter_none {A : Type} (P : A → Prop) `{!∀ x, Decision (P x)} (l : list A) :
  Forall (λ x, ¬ P x) l → filter P l = [].
Proof.
  induction 1 as [|x l Hx Hall IH]; [done|]. by rewrite filter_cons_False.
Qed.

Lemma chunksToUse_none_recent (m now : Z) (buf : list BufferChunk) :
  Forall (λ c, timestamp c < now - m * 60 * 1000) buf →
  chunksToUse (Some m) now buf = [].
Proof.
  intros Hold. simpl. apply filter_none.
  rewrite sortedChunks_Permutation.
  eapply Forall_impl; [exact Hold|]. simpl; intros; lia.
Qed.

(** C6. When the buffer is not empty and no chunk's timestamp reaches the
    cut-off of the requested duration, [captureLastMinutes] reports by one
    toast more, "Not enough buffer data for <m> minute(s)."; on an empty
    buffer it reports by one toast more, "No recording data found in
    buffer.".  The two reports differ: the toast last raised in the first
    case is not the toast last raised in the second (they differ by their
    description).  Both are refusals and not errors: the function returns
    with the error, the last artifact, the buffer and the counter as they
    were, the toast being the only change of the state. *)
Theorem insufficient_window_distinct (m now : Z) (s : Recorder) :
  bufferChunksRef s ≠ [] →
  Forall (λ c, timestamp c < now - m * 60 * 1000) (bufferChunksRef s) →
  let s' := captureLastMinutes (Some m) now s in
  toasts s' = toasts s ++ [toast_not_enough m] ∧
  s' = toast (toast_not_enough m) s ∧
  error s' = error s ∧
  videoURL s' = videoURL s ∧
  bufferChunksRef s' = bufferChunksRef s ∧
  chunkIndexRef s' = chunkIndexRef s ∧
  description (toast_not_enough m) ≠ description toast_empty_buffer ∧
  (∀ minutes s0,
     bufferChunksRef s0 = [] →
     let s0' := captureLastMinutes minutes now s0 in
     toasts s0' = toasts s0 ++ [toast_empty_buffer] ∧
     s0' = toast toast_empty_buffer s0 ∧
     error s0' = error s0 ∧
     videoURL s0' = videoURL s0 ∧
     bufferChunksRef s0' = bufferChunksRef s0 ∧
     chunkIndexRef s0' = chunkIndexRef s0 ∧
     last (toasts s') ≠ last (toasts s0')).
Proof.
  intros Hnonempty Hold s'.
  assert (s' = toast (toast_not_enough m) s) as Hdeclined.
  { subst s'. unfold captureLastMinutes. rewrite decide_False.
    - by rewrite chunksToUse_none_recent.
    - intros Hlen. by apply nil_length_inv in Hlen. }
  assert (description (toast_not_enough m) ≠ description toast_empty_buffer)
    as Hdistinct by (simpl; discriminate).
  split_and!; try (rewrite Hdeclined; reflexivity); [done|].
  intros minutes s0 Hempty s0'.
  assert (s0' = toast toast_empty_buffer s0) as Hnodata.
  { subst s0'. unfold captureLastMinutes. by rewrite Hempty. }
  split_and!; try (rewrite Hnodata; reflexivity).
  rewrite Hdeclined, Hnodata.
  change (toasts (toast (toast_not_enough m) s))
    with (toasts s ++ [toast_not_enough m]).
  change (toasts (toast toast_empty_buffer s0))
    with (toasts s0 ++ [toast_empty_buffer]).
  rewrite !last_snoc. intros Hsame.
  assert (toast_not_enough m = toast_empty_buffer) as Heq by congruence.
  apply Hdistinct. by rewrite Heq.
Qed.

Lemma insufficient_window_distinct_witness :
  toasts (captureLastMinutes (Some 1) 120000 recording_one_chunk) =
    toasts recording_one_chunk ++
    [{| title := "No data available";
        description := "Not enough buffer data for 1 minute(s).";
        variant := destructive |}] ∧
  toasts (captureLastMinutes (Some 1) 120000 initial) =
    [{| title := "No data available";
        description := "No recording data found in buffer.";
        variant := destructive |}] ∧
  last (toasts (captureLastMinutes (Some 1) 120000 recording_one_chunk)) ≠
    last (toasts (captureLastMinutes (Some 1) 120000 initial)).
Proof.
  destruct (insufficient_window_distinct 1 120000 recording_one_chunk)
    as (Hreport & _ & _ & _ & _ & _ & _ & Hempty).
  - discriminate.
  - repeat constructor.
  - destruct (Hempty (Some 1) initial) as (Hnodata & _ & _ & _ & _ & _ & Hdiffer);
      [reflexivity|].
    split_and!; [exact Hreport|exact Hnodata|exact Hdiffer].
Defined.

(** C2, as amended.  [captureLastMinutes] runs no eviction: it leaves the
    buffer and the counter as they are, and capturing all considers every
    stored chunk, whatever its age.  The chunks it considers are within the
    window when [cleanupOldBufferChunks] has run on the buffer with the same
    clock value and the current settings. *)
Theorem captureLastMinutes_no_eviction (minutes : option Z) (now : Z) (s : Recorder) :
  bufferChunksRef (captureLastMinutes minutes now s) = bufferChunksRef s ∧
  chunkIndexRef (captureLastMinutes minutes now s) = chunkIndexRef s ∧
  chunksToUse None now (bufferChunksRef s) ≡ₚ bufferChunksRef s ∧
  (∀ c,
     c ∈ chunksToUse minutes now
           (bufferChunksRef (cleanupOldBufferChunks (settings s) now s)) →
     now - timestamp c ≤ maxAge (settings s)).
Proof.
  destruct (captureLastMinutes_buffer minutes now s) as [Hbuf Hidx].
  split_and!; [done|done|apply sortedChunks_Permutation|].
  intros c Hc.
  eapply elem_of_sublist in Hc; [|apply chunksToUse_sublist].
  rewrite sortedChunks_Permutation, cleanup_buffer in Hc.
  by apply list_elem_of_filter in Hc as [Hlive _].
Qed.

(** C2, counterexample.  With the initial window of 3 minutes, a chunk
    stamped 0 is still in the buffer at time 180500, between two sweeps of the
    timer; capturing all at that time assembles it although it is older than
    the window, and the buffer is left as it was. *)
Lemma captureLastMinutes_uses_expired_chunk :
  let s := recording_one_chunk in
  let now := 180500 in
  let c := {| data := blob1; timestamp := 0; index := 0 |} in
  c ∈ chunksToUse None now (bufferChunksRef s) ∧
  now - timestamp c > maxAge (settings s) ∧
  videoURL (captureLastMinutes None now s) = Some (new_Blob [blob1] "video/webm") ∧
  bufferChunksRef (captureLastMinutes None now s) = bufferChunksRef s.
Proof.
  cbv zeta. split_and!.
  - vm_compute. apply list_elem_of_here.
  - vm_compute. reflexivity.
  - vm_compute. reflexivity.
  - vm_compute. reflexivity.
Qed.

(** ** Changing the window *)

(** While a session is recording, a change of [bufferDuration] filters the
    buffer with the duration of the settings before the change. *)
Lemma updateSettings_bufferDuration_buffer (v now : Z) (s : Recorder) :
  backgroundRecording s = true →
  bufferChunksRef (updateSettings (Set_bufferDuration v) now s) =
    filter (λ chunk, now - timestamp chunk ≤ maxAge (settings s)) (bufferChunksRef s) ∧
  bufferDuration (settings (updateSettings (Set_bufferDuration v) now s)) = v.
Proof. intros Hactive. unfold updateSettings. simpl. by rewrite Hactive. Qed.

(** C3, the code at the failing input.  The session records with a window of
    5 minutes and holds a chunk stamped 0; at time 120000 the window is set
    to 1 minute.  The settings then say 1 minute, but the buffer still holds
    the chunk, which is two minutes old: the clean-up that [updateSettings]
    calls has filtered with the 5 minutes of the render it belongs to.  A
    clean-up reading the new settings would have emptied the buffer. *)
Theorem updateSettings_shrink_keeps_old_chunk :
  let s := recording_five_minutes in
  let now := 120000 in
  let s' := updateSettings (Set_bufferDuration 1) now s in
  let c := {| data := blob1; timestamp := 0; index := 0 |} in
  backgroundRecording s = true ∧
  bufferDuration (settings s) = 5 ∧
  bufferDuration (settings s') = 1 ∧
  bufferChunksRef s' = [c] ∧
  now - timestamp c > maxAge (settings s') ∧
  bufferChunksRef (cleanupOldBufferChunks (settings s') now s') = [].
Proof. cbv zeta. by vm_compute. Qed.

(** ** Starting a session *)

(** What the awaited request leaves untouched: the part of
    [startBackgroundRecording] after the [await] writes neither the buffer
    nor the counter. *)
Lemma startBackgroundRecording_settle_buffer (o : StartOutcome) (s : Recorder) :
  bufferChunksRef (startBackgroundRecording_settle o s) = bufferChunksRef s ∧
  chunkIndexRef (startBackgroundRecording_settle o s) = chunkIndexRef s.
Proof. by destruct o. Qed.

(** C4, as amended.  [startBackgroundRecording] has no check for a session
    already recording.  Called while one is, its statements before the
    request for the display stream empty the buffer and reset the counter to
    0, and leave the session flag and the running recorder and stream in
    place.  While the request is awaited the callbacks of the running
    session go on ([during]); the statements after the request write neither
    the buffer nor the counter, so that at the end of the call these hold
    what the callbacks have made of the emptied buffer: the chunks that the
    running recorder has appended meanwhile, numbered from 0 again.  When the
    request succeeds, the new stream and the new recorder take the place of
    the old ones. *)
Theorem startBackgroundRecording_while_active (o : StartOutcome)
  (during : list Event) (s : Recorder) :
  backgroundRecording s = true →
  let requested := startBackgroundRecording_request s in
  let settled := startBackgroundRecording_settle o (run during requested) in
  bufferChunksRef requested = [] ∧
  chunkIndexRef requested = 0 ∧
  backgroundRecording requested = true ∧
  backgroundRecorderRef requested = backgroundRecorderRef s ∧
  backgroundStreamRef requested = backgroundStreamRef s ∧
  bufferChunksRef settled = bufferChunksRef (run during requested) ∧
  chunkIndexRef settled = chunkIndexRef (run during requested) ∧
  (∀ l, during = appends_trace l →
        Forall (λ a, size a.1 > 0) l →
        bufferChunksRef settled = appended 0 l ∧
        chunkIndexRef settled = Z.of_nat (length l)) ∧
  (∀ stream webm,
     o = RecorderStarted stream webm →
     backgroundStreamRef settled = Some stream ∧
     backgroundRecorderRef settled = Some (mkMediaRecorder stream webm)).
Proof.
  intros Hactive requested settled.
  destruct (startBackgroundRecording_settle_buffer o (run during requested))
    as [Hbuf Hidx].
  split_and!; try done.
  - intros l -> Hpos.
    destruct (run_appends l requested Hpos) as [Happ Hcount].
    subst settled. rewrite Hbuf, Hidx, Happ, Hcount. simpl. split; [done|lia].
  - by intros stream webm ->.
Qed.

Lemma startBackgroundRecording_while_active_witness :
  bufferChunksRef (startBackgroundRecording_request recording_one_chunk) = [] ∧
  chunkIndexRef (startBackgroundRecording_request recording_one_chunk) = 0 ∧
  bufferChunksRef
    (startBackgroundRecording_settle (RecorderStarted stream2 true)
       (run (appends_trace [(blob2, 1000)])
          (startBackgroundRecording_request recording_one_chunk))) =
    [{| data := blob2; timestamp := 1000; index := 0 |}].
Proof.
  destruct (startBackgroundRecording_while_active
              (RecorderStarted stream2 true) (appends_trace [(blob2, 1000)])
              recording_one_chunk)
    as (Hbuf & Hidx & _ & _ & _ & _ & _ & Hduring & _).
  - reflexivity.
  - destruct (Hduring [(blob2, 1000)]) as [Hheld _];
      [reflexivity|by repeat constructor|].
    split_and!; [exact Hbuf|exact Hidx|exact Hheld].
Defined.

(** C4, counterexample.  A session is recording and holds one chunk, the
    counter standing at 1; a second call of [startBackgroundRecording] is
    carried out.  Already when the request for the display stream is sent,
    the buffer and the counter of the session are not what they were; they
    are not at the end of the call either, be it that no chunk arrives
    while the request is awaited or that the running recorder delivers one,
    which is then the only chunk held, under the index 0 of the chunk that
    was lost. *)
Lemma startBackgroundRecording_second_start_clears :
  let s := recording_one_chunk in
  let requested := startBackgroundRecording_request s in
  let s' := startBackgroundRecording (RecorderStarted stream2 true) s in
  let s'' := startBackgroundRecording_settle (RecorderStarted stream2 true)
               (run [EvData (Some blob2) 1000] requested) in
  backgroundRecording s = true ∧
  bufferChunksRef s = [{| data := blob1; timestamp := 0; index := 0 |}] ∧
  chunkIndexRef s = 1 ∧
  bufferChunksRef requested ≠ bufferChunksRef s ∧
  chunkIndexRef requested ≠ chunkIndexRef s ∧
  bufferChunksRef s' ≠ bufferChunksRef s ∧
  chunkIndexRef s' ≠ chunkIndexRef s ∧
  backgroundRecorderRef s' = Some (mkMediaRecorder stream2 true) ∧
  bufferChunksRef s'' = [{| data := blob2; timestamp := 1000; index := 0 |}] ∧
  bufferChunksRef s'' ≠ bufferChunksRef s ∧
  backgroundRecorderRef s'' = Some (mkMediaRecorder stream2 true).
Proof. cbv zeta. vm_compute. split_and!; done. Qed.

(** C5, as amended.  When [getDisplayMedia] rejects, the buffer is empty and
    the counter is 0 afterwards, the start having cleared them before the
    request; the message of the failure is recorded, no session is recording,
    and no stream is held.  The buffer and the counter are as before the
    attempt exactly when the buffer was empty and the counter 0 already. *)
Theorem startBackgroundRecording_rejected (err : JsError) (s : Recorder) :
  let s' := startBackgroundRecording (DisplayMediaRejected err) s in
  bufferChunksRef s' = [] ∧
  chunkIndexRef s' = 0 ∧
  error s' = Some (errorMessage err) ∧
  backgroundRecording s' = false ∧
  backgroundStreamRef s' = None ∧
  (bufferChunksRef s' = bufferChunksRef s ∧ chunkIndexRef s' = chunkIndexRef s ↔
   bufferChunksRef s = [] ∧ chunkIndexRef s = 0).
Proof. cbv zeta. simpl. split_and!; try done. split; intros [? ?]; done. Qed.

(** C5, counterexample.  The user has ended the screen sharing; the buffer
    still holds a chunk and the counter stands at 1.  The next start is
    refused permission, and the buffer is empty and the counter 0. *)
Lemma startBackgroundRecording_rejected_clears :
  let s := sharing_ended in
  let s' := startBackgroundRecording
              (DisplayMediaRejected (mkError "NotAllowedError" "Permission denied")) s in
  backgroundRecording s = false ∧
  bufferChunksRef s = [{| data := blob1; timestamp := 0; index := 0 |}] ∧
  chunkIndexRef s = 1 ∧
  error s' = Some "Permission denied. Please allow screen sharing." ∧
  bufferChunksRef s' ≠ bufferChunksRef s ∧
  chunkIndexRef s' ≠ chunkIndexRef s.
Proof. cbv zeta. vm_compute. split_and!; done. Qed.

(** ** The sequence index *)

Lemma step_counter (s : Recorder) (e : Event) :
  clears e = false →
  match assigned s e with
  | Some i => i = chunkIndexRef s ∧ chunkIndexRef (step s e) = chunkIndexRef s + 1
  | None => chunkIndexRef (step s e) = chunkIndexRef s
  end.
Proof.
  destruct e as [o| |d now|cfg now|minutes now| |c now| | |message|];
    try done; intros _.
  - destruct d as [d|]; [|done]. unfold assigned, step.
    destruct (decide (size d > 0)) as [Hsize|Hsize].
    + split; [done|]. by apply ondataavailable_positive.
    + unfold ondataavailable. by rewrite decide_False.
  - apply captureLastMinutes_buffer.
  - simpl. unfold updateSettings.
    by destruct (is_bufferDuration c && backgroundRecording s).
Qed.

Lemma assignedLog_from_counter (tr : list Event) (s : Recorder) :
  Forall (λ e, clears e = false) tr →
  StronglySorted Z.lt (assignedLog tr s) ∧
  Forall (λ i, chunkIndexRef s ≤ i) (assignedLog tr s).
Proof.
  intros Hkeep. revert s.
  induction Hkeep as [|e tr He Hkeep IH]; intros s; simpl.
  - split; constructor.
  - pose proof (step_counter s e He) as Hstep.
    destruct (IH (step s e)) as [Hsorted Hbound].
    destruct (assigned s e) as [i|].
    + destruct Hstep as [-> Hnext]. rewrite Hnext in Hbound. split.
      * constructor; [done|]. eapply Forall_impl; [exact Hbound|]. simpl; intros; lia.
      * constructor; [lia|]. eapply Forall_impl; [exact Hbound|]. simpl; intros; lia.
    + by rewrite Hstep in Hbound.
Qed.

Lemma StronglySorted_lt_NoDup (l : list Z) : StronglySorted Z.lt l → NoDup l.
Proof.
  induction 1 as [|x l Hsorted IH Hall]; constructor; [|done].
  intros Hin. rewrite Forall_forall in Hall. specialize (Hall x Hin). lia.
Qed.

(** C10, as amended.  Along every trace of callbacks without a clear of the
    buffer ([clearBuffer], and the start and stop of a session), the indices
    given to the appended chunks are strictly increasing, so none is given
    twice.  Along every trace, clears included, the chunks held in the buffer
    carry strictly increasing indices below the counter.  [clearBuffer]
    resets the counter: the chunk appended first after it gets the index 0. *)
Theorem sequence_increasing_between_clears :
  (∀ tr s,
     Forall (λ e, clears e = false) tr →
     StronglySorted Z.lt (assignedLog tr s) ∧ NoDup (assignedLog tr s)) ∧
  (∀ tr s, indices_increasing s → indices_increasing (run tr s)) ∧
  (∀ d now s,
     size d > 0 → assigned (clearBuffer s) (EvData (Some d) now) = Some 0).
Proof.
  split_and!.
  - intros tr s Hkeep.
    destruct (assignedLog_from_counter tr s Hkeep) as [Hsorted _].
    split; [done|]. by apply StronglySorted_lt_NoDup.
  - apply run_invariant, indices_increasing_change.
  - intros d now s Hsize. simpl. by rewrite decide_True.
Qed.

Lemma sequence_increasing_between_clears_witness :
  let tr := [EvData (Some blob1) 0; EvTick initial_settings 500;
             EvData (Some blob0) 600; EvCapture None 700;
             EvData (Some blob2) 1000] in
  assignedLog tr recording_one_chunk = [1; 2] ∧
  NoDup (assignedLog tr recording_one_chunk) ∧
  indices_increasing (run tr recording_one_chunk).
Proof.
  destruct sequence_increasing_between_clears as (Hlog & Hinv & _).
  cbv zeta. split_and!.
  - reflexivity.
  - apply Hlog. repeat constructor.
  - apply Hinv. unfold indices_increasing. vm_compute. split; repeat constructor.
Defined.

(** C10, counterexample.  In a recording session two chunks are appended,
    the buffer is cleared, and a third chunk is appended: the indices given
    are 0, 1 and 0.  The value 0 is given twice within the session, and the
    indices are not increasing. *)
Lemma clearBuffer_reuses_sequence :
  let s := run [EvStart (RecorderStarted stream1 true); EvOnStart] initial in
  forallb session_event trace_with_clear = true ∧
  assignedLog trace_with_clear s = [0; 1; 0] ∧
  ¬ NoDup (assignedLog trace_with_clear s) ∧
  ¬ StronglySorted Z.lt (assignedLog trace_with_clear s).
Proof.
  cbv zeta.
  assert (assignedLog trace_with_clear
            (run [EvStart (RecorderStarted stream1 true); EvOnStart] initial)
          = [0; 1; 0]) as Hlog by reflexivity.
  rewrite Hlog. split_and!; [reflexivity|reflexivity| |].
  - intros Hnodup. apply NoDup_cons in Hnodup as [Hnotin _].
    apply Hnotin. apply list_elem_of_further, list_elem_of_here.
  - intros Hsorted. apply StronglySorted_cons in Hsorted as [_ Hsorted].
    apply StronglySorted_cons in Hsorted as [Hall _].
    apply Forall_cons_1 in Hall as [Hlt _]. lia.
Qed.

(** * Further properties of the component *)

(** ** Sweeps and appends *)

(** X1. A sweep at a later time with a window no longer than that of an
    earlier sweep makes the earlier sweep superfluous: the two in a row leave
    the state that the later one leaves alone. *)
Theorem cleanup_later_sweep_subsumes (cfg1 cfg2 : RecordingSettings)
  (now1 now2 : Z) (s : Recorder) :
  now1 ≤ now2 →
  bufferDuration cfg2 ≤ bufferDuration cfg1 →
  cleanupOldBufferChunks cfg2 now2 (cleanupOldBufferChunks cfg1 now1 s) =
  cleanupOldBufferChunks cfg2 now2 s.
Proof.
  intros Hnow Hwindow.
  unfold cleanupOldBufferChunks, set_bufferChunksRef; simpl. f_equal.
  rewrite list_filter_filter. apply list_filter_iff.
  intros c. unfold maxAge. split; [tauto|]. intros Hlive. split; [done|lia].
Qed.

Lemma cleanup_later_sweep_subsumes_witness :
  index <$> bufferChunksRef
              (cleanupOldBufferChunks (settings five_chunks) 61500 five_chunks) =
    [2; 3; 4] ∧
  index <$> bufferChunksRef
              (cleanupOldBufferChunks (settings five_chunks) 62500 five_chunks) =
    [3; 4] ∧
  cleanupOldBufferChunks (settings five_chunks) 62500
    (cleanupOldBufferChunks (settings five_chunks) 61500 five_chunks) =
  cleanupOldBufferChunks (settings five_chunks) 62500 five_chunks.
Proof.
  split_and!; [reflexivity|reflexivity|].
  apply cleanup_later_sweep_subsumes; lia.
Defined.

(** X2. A chunk appended at time [now] is kept by every sweep at a time
    [now'] at which it is not older than the window, and sweeping after the
    append gives the buffer that appending after the sweep gives. *)
Theorem fresh_chunk_survives_sweep (cfg : RecordingSettings) (d : Blob)
  (now now' : Z) (s : Recorder) :
  size d > 0 →
  now' - now ≤ maxAge cfg →
  bufferChunksRef (cleanupOldBufferChunks cfg now' (ondataavailable (Some d) now s)) =
    bufferChunksRef (cleanupOldBufferChunks cfg now' s) ++
    [{| data := d; timestamp := now; index := chunkIndexRef s |}] ∧
  bufferChunksRef (cleanupOldBufferChunks cfg now' (ondataavailable (Some d) now s)) =
    bufferChunksRef (ondataavailable (Some d) now (cleanupOldBufferChunks cfg now' s)).
Proof.
  intros Hsize Hfresh.
  destruct (ondataavailable_positive d now s Hsize) as [Hbuf _].
  destruct (ondataavailable_positive d now (cleanupOldBufferChunks cfg now' s) Hsize)
    as [Hbuf' _].
  rewrite Hbuf', !cleanup_buffer, Hbuf, filter_app.
  rewrite (filter_cons_True _ _ []) by done. done.
Qed.

Lemma fresh_chunk_survives_sweep_witness :
  bufferChunksRef
    (cleanupOldBufferChunks initial_settings 180500
       (ondataavailable (Some blob2) 180000 recording_one_chunk)) =
  [{| data := blob2; timestamp := 180000; index := 1 |}].
Proof.
  destruct (fresh_chunk_survives_sweep initial_settings blob2 180000 180500
              recording_one_chunk) as [Hkept _].
  - reflexivity.
  - by vm_compute.
  - exact Hkept.
Defined.

(** ** What an extraction uses *)

Lemma filter_narrower {A : Type} (P1 P2 : A → Prop)
  `{!∀ x, Decision (P1 x), !∀ x, Decision (P2 x)} (l : list A) :
  (∀ x, P1 x → P2 x) → filter P1 l `sublist_of` filter P2 l.
Proof.
  intros Himpl.
  assert (filter P1 l = filter P1 (filter P2 l)) as ->.
  { rewrite list_filter_filter. apply list_filter_iff. intros x. split; [auto|tauto]. }
  apply sublist_filter.
Qed.

(** X3. A longer request contains a shorter one: the chunks used for [m1]
    minutes are a sublist of those used for [m2 >= m1] minutes, which are a
    sublist of those used when capturing all. *)
Theorem chunksToUse_monotone (m1 m2 now : Z) (buf : list BufferChunk) :
  m1 ≤ m2 →
  chunksToUse (Some m1) now buf `sublist_of` chunksToUse (Some m2) now buf ∧
  chunksToUse (Some m2) now buf `sublist_of` chunksToUse None now buf.
Proof.
  intros Hle. split; [|apply sublist_filter].
  simpl. apply filter_narrower. intros c. lia.
Qed.

Lemma chunksToUse_monotone_witness :
  chunksToUse (Some 1) 62500 (bufferChunksRef five_chunks)
    `sublist_of` chunksToUse (Some 3) 62500 (bufferChunksRef five_chunks).
Proof.
  apply (chunksToUse_monotone 1 3 62500 (bufferChunksRef five_chunks)). lia.
Defined.

Lemma filter_all {A : Type} (P : A → Prop) `{!∀ x, Decision (P x)} (l : list A) :
  Forall P l → filter P l = l.
Proof.
  induction 1 as [|x l Hx Hall IH]; [done|]. by rewrite filter_cons_True, IH.
Qed.

Lemma indices_increasing_initial : indices_increasing initial.
Proof. split; constructor. Qed.

(** X4. In every state the component reaches from its first render, the
    sort of [captureLastMinutes] finds the buffer in order already: the
    chunks used are the stored chunks that pass the cut-off, in the order in
    which they are stored, and capturing all of a buffer that is not empty
    assembles the data of the whole buffer in that order. *)
Theorem reachable_capture_in_storage_order (tr : list Event) (now : Z) :
  let buf := bufferChunksRef (run tr initial) in
  chunksToUse None now buf = buf ∧
  (∀ m, chunksToUse (Some m) now buf =
        filter (λ chunk, timestamp chunk >= now - m * 60 * 1000) buf) ∧
  (buf ≠ [] →
   videoURL (captureLastMinutes None now (run tr initial)) =
     Some (new_Blob (data <$> buf) "video/webm")).
Proof.
  intros buf.
  assert (sortedChunks buf = buf) as Hid.
  { apply sortedChunks_id.
    destruct (run_invariant indices_increasing indices_increasing_change
                tr initial indices_increasing_initial) as [Hsorted _].
    eapply StronglySorted_weaken; [|exact Hsorted]. simpl; intros; lia. }
  split_and!.
  - exact Hid.
  - intros m. simpl. by rewrite Hid.
  - intros Hsome. rewrite captureLastMinutes_artifact.
    + simpl chunksToUse. fold buf. by rewrite Hid.
    + simpl chunksToUse. fold buf. by rewrite Hid.
Qed.

Lemma totalSize_from (acc : Z) (parts : list Blob) :
  foldl (λ sum blob, sum + size blob) acc parts =
  acc + Z.of_nat (length (concat (blob_bytes <$> parts))).
Proof.
  revert acc. induction parts as [|b parts IH]; intros acc; simpl; [lia|].
  rewrite IH, length_app. unfold size, fmap. lia.
Qed.

Lemma size_new_Blob (parts : list Blob) (type : string) :
  size (new_Blob parts type) = totalSize parts.
Proof. unfold totalSize. rewrite totalSize_from. unfold size. simpl. lia. Qed.

Lemma totalSize_positive (parts : list Blob) :
  parts ≠ [] → Forall (λ b, size b > 0) parts → totalSize parts > 0.
Proof.
  intros Hsome Hall. destruct Hall as [|b parts Hb Hall]; [done|].
  unfold totalSize. simpl. rewrite totalSize_from.
  unfold size in *. lia.
Qed.

(** X5. When the buffer holds no empty chunk and an extraction finds a chunk
    to use, the artifact saved has the size that the function logs as
    [totalSize], the sum of the sizes of the chunks used, and it is not
    empty. *)
Theorem captured_artifact_size (minutes : option Z) (now : Z) (s : Recorder) :
  no_zero_size s →
  chunksToUse minutes now (bufferChunksRef s) ≠ [] →
  ∃ blob,
    videoURL (captureLastMinutes minutes now s) = Some blob ∧
    size blob = totalSize (data <$> chunksToUse minutes now (bufferChunksRef s)) ∧
    size blob > 0.
Proof.
  intros Hnonzero Hused. eexists. split; [by apply captureLastMinutes_artifact|].
  rewrite size_new_Blob. split; [done|].
  apply totalSize_positive.
  - intros Hnil. apply fmap_nil_inv in Hnil. done.
  - apply Forall_fmap. apply Forall_forall. intros c Hc.
    eapply elem_of_sublist in Hc; [|apply chunksToUse_sublist].
    rewrite sortedChunks_Permutation in Hc.
    unfold no_zero_size in Hnonzero. rewrite Forall_forall in Hnonzero.
    by apply Hnonzero.
Qed.

Lemma captured_artifact_size_witness :
  ∃ blob,
    videoURL (captureLastMinutes (Some 1) 62500 five_chunks) = Some blob ∧
    size blob =
      totalSize (data <$> chunksToUse (Some 1) 62500 (bufferChunksRef five_chunks)) ∧
    size blob > 0.
Proof.
  apply (captured_artifact_size (Some 1) 62500 five_chunks).
  - unfold no_zero_size. vm_compute. by repeat constructor.
  - vm_compute. discriminate.
Defined.

(** X6. [captureLastMinutes] raises exactly one toast and touches nothing
    but [videoURL] and the toasts: the buffer, the counter, the session flag,
    the settings, the error, the timer values and the recorder and stream
    refs are as before.  The toast is "Capture saved", or else [videoURL] is
    as before and the toast is one of the two refusals. *)
Theorem captureLastMinutes_footprint (minutes : option Z) (now : Z) (s : Recorder) :
  let s' := captureLastMinutes minutes now s in
  buffer_core s' = buffer_core s ∧
  error s' = error s ∧
  bufferTime s' = bufferTime s ∧
  bufferSize s' = bufferSize s ∧
  backgroundRecorderRef s' = backgroundRecorderRef s ∧
  backgroundStreamRef s' = backgroundStreamRef s ∧
  ∃ t, toasts s' = toasts s ++ [t] ∧
       (t = toast_saved minutes ∨
        videoURL s' = videoURL s ∧
        (t = toast_empty_buffer ∨ ∃ m, minutes = Some m ∧ t = toast_not_enough m)).
Proof.
  cbv zeta. unfold captureLastMinutes.
  case_decide as Hlen.
  { split_and!; try done. eexists. split; [done|]. right. split; [done|]. by left. }
  destruct minutes as [m|].
  - destruct (chunksToUse (Some m) now (bufferChunksRef s)) as [|c used].
    + split_and!; try done. eexists. split; [done|]. right. split; [done|].
      right. by exists m.
    + split_and!; try done. eexists. split; [done|]. by left.
  - split_and!; try done. eexists. split; [done|]. by left.
Qed.

(** ** Stopping a session *)

(** X7. The recorder answers [stop()] with a last [dataavailable] and then
    [stop].  After [stopBackgroundRecording], that last chunk, when it is not
    empty, is stored under the index 0 and is still in the buffer once
    [onstop] has run, while the chunk count on display is 0 and no session is
    recording. *)
Theorem stop_then_last_chunk (d : Blob) (now : Z) (s : Recorder) :
  size d > 0 →
  let s' := onstop (ondataavailable (Some d) now (stopBackgroundRecording s)) in
  bufferChunksRef s' = [{| data := d; timestamp := now; index := 0 |}] ∧
  chunkIndexRef s' = 1 ∧
  bufferSize s' = 0 ∧
  backgroundRecording s' = false ∧
  backgroundRecorderRef s' = None.
Proof.
  intros Hsize s'.
  destruct (ondataavailable_positive d now (stopBackgroundRecording s) Hsize)
    as [Hbuf Hidx].
  split_and!.
  - exact Hbuf.
  - exact Hidx.
  - reflexivity.
  - reflexivity.
  - subst s'. unfold ondataavailable. by rewrite decide_True.
Qed.

Lemma stop_then_last_chunk_witness :
  bufferChunksRef
    (onstop (ondataavailable (Some blob2) 5000 (stopBackgroundRecording five_chunks))) =
  [{| data := blob2; timestamp := 5000; index := 0 |}].
Proof.
  destruct (stop_then_last_chunk blob2 5000 five_chunks) as [Hbuf _].
  - reflexivity.
  - exact Hbuf.
Defined.

(** ** The timer *)

(** X8. A tick of the background timer counts one second and reports the
    length the buffer had before the sweep of that tick: the chunk count on
    display exceeds the length of the buffer by the number of chunks the tick
    has just evicted. *)
Theorem bufferTimerTick_reported_size (cfg : RecordingSettings) (now : Z) (s : Recorder) :
  let s' := bufferTimerTick cfg now s in
  bufferTime s' = bufferTime s + 1 ∧
  bufferSize s' = Z.of_nat (length (bufferChunksRef s)) ∧
  bufferSize s' =
    Z.of_nat (length (bufferChunksRef s')) +
    Z.of_nat (length (filter (λ chunk, ¬ now - timestamp chunk ≤ maxAge cfg)
                        (bufferChunksRef s))).
Proof.
  cbv zeta. split_and!; [done|done|].
  change (bufferSize (bufferTimerTick cfg now s))
    with (Z.of_nat (length (bufferChunksRef s))).
  change (bufferChunksRef (bufferTimerTick cfg now s))
    with (filter (λ chunk, now - timestamp chunk ≤ maxAge cfg) (bufferChunksRef s)).
  rewrite <- Nat2Z.inj_add, <- length_app. f_equal.
  apply Permutation_length. symmetry. apply filter_app_complement.
Qed.

(** ** The counter *)

Lemma increasing_length_bound (l : list BufferChunk) (lo hi : Z) :
  StronglySorted (λ a b, index a < index b) l →
  Forall (λ c, lo ≤ index c < hi) l →
  lo ≤ hi →
  Z.of_nat (length l) ≤ hi - lo.
Proof.
  intros Hsorted. revert lo.
  induction Hsorted as [|c l Hsorted IH Hall]; intros lo Hrange Hle; simpl; [lia|].
  apply Forall_cons_1 in Hrange as [Hc Hrange].
  assert (Z.of_nat (length l) ≤ hi - (index c + 1)) as Hl; [|lia].
  apply IH; [|lia].
  apply Forall_forall. intros c' Hc'.
  rewrite Forall_forall in Hall, Hrange.
  specialize (Hall c' Hc'). specialize (Hrange c' Hc'). lia.
Qed.

(** X9. In every state the component reaches from its first render, the
    counter is not negative, every stored chunk carries an index between 0
    and the counter, no two stored chunks carry the same index, and the
    buffer holds no more chunks than the counter says. *)
Theorem reachable_counter_bounds (tr : list Event) :
  let s := run tr initial in
  0 ≤ chunkIndexRef s ∧
  Forall (λ c, 0 ≤ index c < chunkIndexRef s) (bufferChunksRef s) ∧
  NoDup (index <$> bufferChunksRef s) ∧
  Z.of_nat (length (bufferChunksRef s)) ≤ chunkIndexRef s.
Proof.
  cbv zeta.
  pose (P := λ s : Recorder,
          indices_increasing s ∧ 0 ≤ chunkIndexRef s ∧
          Forall (λ c, 0 ≤ index c) (bufferChunksRef s)).
  assert (P (run tr initial)) as (Hinc & Hcounter & Hnonneg).
  { apply run_invariant.
    - intros s s' Hchange (Hinc & Hcounter & Hnonneg).
      split; [by eapply indices_increasing_change|].
      destruct Hchange as [Hsub Hidx|Hnil Hidx|d now Hsize Happ Hidx].
      + rewrite Hidx. split; [done|].
        apply Forall_forall. intros c Hc. rewrite Forall_forall in Hnonneg.
        apply Hnonneg. by eapply elem_of_sublist.
      + rewrite Hnil, Hidx. split; [done|constructor].
      + rewrite Happ, Hidx. split; [lia|].
        apply Forall_app. split; [done|]. by repeat constructor.
    - split; [apply indices_increasing_initial|]. split; [done|constructor]. }
  destruct Hinc as [Hsorted Hbelow].
  assert (Forall (λ c, 0 ≤ index c < chunkIndexRef (run tr initial))
            (bufferChunksRef (run tr initial))) as Hrange.
  { apply Forall_forall. intros c Hc.
    rewrite Forall_forall in Hbelow, Hnonneg.
    specialize (Hbelow c Hc). specialize (Hnonneg c Hc). lia. }
  split_and!; [done|done| |].
  - apply StronglySorted_lt_NoDup.
    eapply (StronglySorted_fmap index (λ a b, index a < index b)); [|exact Hsorted].
    intros a b Hab. exact Hab.
  - pose proof (increasing_length_bound _ 0 _ Hsorted Hrange Hcounter). lia.
Qed.

(** ** The capture buttons *)

Lemma availableTime_half (now : Z) (c : BufferChunk) :
  Qle_bool 0.5 (availableTime now c) = true ↔ 30000 ≤ now - timestamp c.
Proof.
  rewrite Qle_bool_iff.
  unfold availableTime, Qle, Qdiv, Qmult, Qinv, inject_Z. simpl. lia.
Qed.

Lemma availableTime_two_and_half (now : Z) (c : BufferChunk) :
  Qle_bool 2.5 (availableTime now c) = true ↔ 150000 ≤ now - timestamp c.
Proof.
  rewrite Qle_bool_iff.
  unfold availableTime, Qle, Qdiv, Qmult, Qinv, inject_Z. simpl. lia.
Qed.

Lemma availableTime_four_and_half (now : Z) (c : BufferChunk) :
  Qle_bool 4.5 (availableTime now c) = true ↔ 270000 ≤ now - timestamp c.
Proof.
  rewrite Qle_bool_iff.
  unfold availableTime, Qle, Qdiv, Qmult, Qinv, inject_Z. simpl. lia.
Qed.

(** The head of the buffer sorted by timestamp is a chunk of the buffer, and
    no chunk of the buffer is older. *)
Lemma oldest_is_minimum (buf rest : list BufferChunk) (oldest : BufferChunk) :
  array_sort (λ a b, timestamp a - timestamp b) buf = oldest :: rest →
  oldest ∈ buf ∧ ∀ c, c ∈ buf → timestamp oldest ≤ timestamp c.
Proof.
  intros Hsort.
  pose proof (array_sort_Permutation (λ a b, timestamp a - timestamp b) buf) as Hperm.
  assert (StronglySorted (λ a b, timestamp a - timestamp b ≤ 0)
            (array_sort (λ a b, timestamp a - timestamp b) buf)) as Hsorted.
  { apply array_sort_sorted; simpl; intros; lia. }
  rewrite Hsort in Hperm, Hsorted.
  apply StronglySorted_cons in Hsorted as [Hall _].
  split.
  - rewrite <- Hperm. apply list_elem_of_here.
  - intros c Hc. rewrite <- Hperm in Hc.
    apply elem_of_cons in Hc as [->|Hc]; [lia|].
    rewrite Forall_forall in Hall. specialize (Hall c Hc). simpl in Hall. lia.
Qed.

Lemma getAvailableCaptures_oldest (now : Z) (buf : list BufferChunk) :
  buf = [] ∧ getAvailableCaptures now buf = [] ∨
  ∃ oldest,
    oldest ∈ buf ∧ (∀ c, c ∈ buf → timestamp oldest ≤ timestamp c) ∧
    getAvailableCaptures now buf =
      (if decide (30000 ≤ now - timestamp oldest) then [1] else []) ++
      (if decide (150000 ≤ now - timestamp oldest) then [3] else []) ++
      (if decide (270000 ≤ now - timestamp oldest) then [5] else []).
Proof.
  unfold getAvailableCaptures. case_decide as Hlen.
  { left. split; [by apply nil_length_inv|done]. }
  right.
  destruct (array_sort (λ a b, timestamp a - timestamp b) buf)
    as [|oldest rest] eqn:Hsort.
  { pose proof (array_sort_Permutation (λ a b, timestamp a - timestamp b) buf) as Hperm.
    rewrite Hsort in Hperm. symmetry in Hperm.
    apply Permutation_nil_r in Hperm. by subst buf. }
  destruct (oldest_is_minimum buf rest oldest Hsort) as [Hin Hmin].
  exists oldest. split_and!; [done|done|].
  pose proof (availableTime_half now oldest) as H1.
  pose proof (availableTime_two_and_half now oldest) as H3.
  pose proof (availableTime_four_and_half now oldest) as H5.
  destruct (Qle_bool 0.5 (availableTime now oldest));
    destruct (Qle_bool 2.5 (availableTime now oldest));
    destruct (Qle_bool 4.5 (availableTime now oldest));
    repeat case_decide; try reflexivity; exfalso; intuition (try lia; try discriminate).
Qed.

Lemma getAvailableCaptures_elem (now m : Z) (buf : list BufferChunk) :
  m ∈ getAvailableCaptures now buf ↔
  m ∈ [1; 3; 5] ∧ ∃ c, c ∈ buf ∧ tier_threshold m ≤ now - timestamp c.
Proof.
  destruct (getAvailableCaptures_oldest now buf)
    as [[-> ->]|(oldest & Hin & Hmin & ->)].
  { split; [by intros ?%elem_of_nil|]. intros (_ & c & Hc & _).
    by apply elem_of_nil in Hc. }
  assert ((∃ c, c ∈ buf ∧ tier_threshold m ≤ now - timestamp c) ↔
          tier_threshold m ≤ now - timestamp oldest) as ->.
  { split; [|by exists oldest]. intros (c & Hc & Hage).
    specialize (Hmin c Hc). lia. }
  unfold tier_threshold.
  rewrite !elem_of_app, !elem_of_cons, elem_of_nil.
  repeat case_decide;
    rewrite ?elem_of_cons, ?elem_of_nil; split; intros; intuition lia.
Qed.

(** X10. The buttons offered form one of the lists [], [1], [1, 3] and
    [1, 3, 5], and the button of [m] minutes is offered exactly when the
    buffer holds a chunk that is at least [m] minutes less 30 seconds old.
    The order in which the chunks are stored plays no part. *)
Theorem getAvailableCaptures_tiers (now : Z) (buf : list BufferChunk) :
  getAvailableCaptures now buf ∈ [[]; [1]; [1; 3]; [1; 3; 5]] ∧
  (∀ m, m ∈ getAvailableCaptures now buf ↔
        m ∈ [1; 3; 5] ∧
        ∃ c, c ∈ buf ∧ (2 * m - 1) * 30000 ≤ now - timestamp c) ∧
  (∀ buf', buf ≡ₚ buf' → getAvailableCaptures now buf' = getAvailableCaptures now buf).
Proof.
  assert (∀ b, getAvailableCaptures now b ∈ [[]; [1]; [1; 3]; [1; 3; 5]]) as Hshape.
  { intros b. destruct (getAvailableCaptures_oldest now b)
      as [[_ ->]|(oldest & _ & _ & ->)]; [apply list_elem_of_here|].
    rewrite !elem_of_cons, elem_of_nil.
    repeat case_decide; simpl; try lia; auto 10. }
  split_and!.
  - apply Hshape.
  - intros m. apply getAvailableCaptures_elem.
  - intros buf' Hperm.
    destruct (getAvailableCaptures_oldest now buf)
      as [[Hnil ->]|(oldest & Hin & Hmin & ->)];
      destruct (getAvailableCaptures_oldest now buf')
        as [[Hnil' ->]|(oldest' & Hin' & Hmin' & ->)].
    + done.
    + subst buf. rewrite <- Hperm in Hin'. by apply elem_of_nil in Hin'.
    + subst buf'. rewrite Hperm in Hin. by apply elem_of_nil in Hin.
    + assert (timestamp oldest' = timestamp oldest) as ->; [|done].
      rewrite <- Hperm in Hin'. rewrite Hperm in Hin.
      specialize (Hmin oldest' Hin'). specialize (Hmin' oldest Hin). lia.
Qed.

(** X11. After a sweep, no button for more minutes than the window of the
    sweep is offered at that time. *)
Theorem no_capture_beyond_window (cfg : RecordingSettings) (now m : Z) (s : Recorder) :
  m ∈ getAvailableCaptures now (bufferChunksRef (cleanupOldBufferChunks cfg now s)) →
  m ≤ bufferDuration cfg.
Proof.
  intros Hm. apply getAvailableCaptures_elem in Hm as (_ & c & Hc & Hage).
  rewrite cleanup_buffer in Hc. apply list_elem_of_filter in Hc as [Hlive _].
  unfold tier_threshold in Hage. unfold maxAge in Hlive. lia.
Qed.

Lemma no_capture_beyond_window_witness :
  1 ≤ bufferDuration (settings five_chunks).
Proof.
  apply (no_capture_beyond_window (settings five_chunks) 40000 1 five_chunks).
  vm_compute. apply list_elem_of_here.
Defined.

(** ** The clock display and the quality tables *)

Lemma padStart_two_digits (n : Z) :
  0 ≤ n < 100 →
  padStart 2 (digit_char 0) (pretty n) =
  String (digit_char (n `div` 10)) (String (digit_char (n `mod` 10)) "").
Proof.
  intros Hn.
  assert (∀ k : nat, (k < 100)%nat →
            padStart 2 (digit_char 0) (pretty (Z.of_nat k)) =
            String (digit_char (Z.of_nat k `div` 10))
              (String (digit_char (Z.of_nat k `mod` 10)) "")) as Hall.
  { intros k Hk.
    do 100 (destruct k as [|k]; [vm_compute; reflexivity|]). lia. }
  specialize (Hall (Z.to_nat n)). rewrite Z2Nat.id in Hall by lia.
  apply Hall. lia.
Qed.

(** X12. For a time from 0 up to 99 minutes 59 seconds, [formatTime] gives
    five characters: the two digits of the minutes, a colon, and the two
    digits of the seconds, which are below 60. *)
Theorem formatTime_mm_ss (seconds : Z) :
  0 ≤ seconds < 6000 →
  let mins := seconds `div` 60 in
  let secs := seconds `mod` 60 in
  formatTime seconds =
    String (digit_char (mins `div` 10)) (String (digit_char (mins `mod` 10)) "")
    +:+ ":" +:+
    String (digit_char (secs `div` 10)) (String (digit_char (secs `mod` 10)) "") ∧
  String.length (formatTime seconds) = 5%nat ∧
  0 ≤ secs < 60.
Proof.
  intros Hrange mins secs.
  assert (0 ≤ mins < 100) as Hmins.
  { subst mins. split; [apply Z.div_pos; lia|apply Z.div_lt_upper_bound; lia]. }
  assert (0 ≤ secs < 60) as Hsecs by (subst secs; apply Z.mod_pos_bound; lia).
  assert (formatTime seconds =
            String (digit_char (mins `div` 10)) (String (digit_char (mins `mod` 10)) "")
            +:+ ":" +:+
            String (digit_char (secs `div` 10)) (String (digit_char (secs `mod` 10)) ""))
    as Hform.
  { unfold formatTime. rewrite Z.rem_mod_nonneg by lia.
    fold mins secs. by rewrite !padStart_two_digits by lia. }
  split; [exact Hform|]. split; [|exact Hsecs].
  rewrite Hform. reflexivity.
Qed.

Lemma formatTime_mm_ss_witness :
  formatTime 125 = "02:05" ∧ String.length (formatTime 125) = 5%nat.
Proof.
  destruct (formatTime_mm_ss 125) as (Hform & Hlen & _); [lia|].
  split; [exact Hform|exact Hlen].
Defined.

(** X13. Every quality tier asks for a 16:9 picture, and from low to ultra
    the width, the height and the video bitrate requested grow strictly,
    whatever the other settings. *)
Theorem quality_tiers_ordered (cfg : RecordingSettings) :
  16 * constraint_height (getVideoConstraints cfg) =
    9 * constraint_width (getVideoConstraints cfg) ∧
  StronglySorted Z.lt
    ((λ q, constraint_width (getVideoConstraints (apply_change cfg (Set_videoQuality q))))
       <$> quality_tiers) ∧
  StronglySorted Z.lt
    ((λ q, constraint_height (getVideoConstraints (apply_change cfg (Set_videoQuality q))))
       <$> quality_tiers) ∧
  StronglySorted Z.lt
    ((λ q, getVideoBitrate (apply_change cfg (Set_videoQuality q))) <$> quality_tiers).
Proof.
  split_and!.
  - unfold getVideoConstraints. simpl. by destruct (videoQuality cfg).
  - simpl. repeat constructor; lia.
  - simpl. repeat constructor; lia.
  - simpl. repeat constructor; lia.
Qed.

(** ** The plain recorder *)

Lemma concat_nonempty_blobs (l : list Blob) :
  concat (blob_bytes <$> filter (λ b, size b > 0) l) = concat (blob_bytes <$> l).
Proof.
  induction l as [|b l IH]; [done|].
  rewrite filter_cons. case_decide as Hsize.
  - rewrite !fmap_cons. simpl. by rewrite IH.
  - rewrite fmap_cons. simpl. rewrite IH.
    unfold size in Hsize. destruct (blob_bytes b); [done|simpl in Hsize; lia].
Qed.

Lemma plain_step_chunks (s : ScreenRecorder.State) (e : ScreenRecorder.Event) :
  ScreenRecorder.starts e = false →
  ScreenRecorder.chunksRef (ScreenRecorder.step s e) =
  ScreenRecorder.chunksRef s ++
  filter (λ b, size b > 0) (ScreenRecorder.delivered [e]).
Proof.
  destruct e as [o|d| | | | |]; intros Hstart; try done.
  - change (ScreenRecorder.delivered [ScreenRecorder.EvData d]) with [d].
    rewrite filter_cons, filter_nil. simpl. unfold ScreenRecorder.ondataavailable.
    destruct (decide (size d > 0)); simpl; by rewrite ?app_nil_r.
  - simpl. by rewrite app_nil_r.
  - simpl. by rewrite app_nil_r.
  - simpl. unfold ScreenRecorder.stopRecording.
    destruct (ScreenRecorder.mediaRecorderRef s); simpl; by rewrite app_nil_r.
  - simpl. unfold ScreenRecorder.pauseRecording.
    destruct (ScreenRecorder.mediaRecorderRef s) as [[]|]; simpl; by rewrite app_nil_r.
  - simpl. unfold ScreenRecorder.resumeRecording.
    destruct (ScreenRecorder.mediaRecorderRef s) as [[]|]; simpl; by rewrite app_nil_r.
Qed.

Lemma plain_delivered_cons (e : ScreenRecorder.Event) (tr : list ScreenRecorder.Event) :
  ScreenRecorder.delivered (e :: tr) =
  ScreenRecorder.delivered [e] ++ ScreenRecorder.delivered tr.
Proof. unfold ScreenRecorder.delivered. simpl. by destruct e. Qed.

Lemma plain_run_chunks (tr : list ScreenRecorder.Event) (s : ScreenRecorder.State) :
  Forall (λ e, ScreenRecorder.starts e = false) tr →
  ScreenRecorder.chunksRef (ScreenRecorder.run tr s) =
  ScreenRecorder.chunksRef s ++ filter (λ b, size b > 0) (ScreenRecorder.delivered tr).
Proof.
  intros Hquiet. revert s.
  induction Hquiet as [|e tr He Hquiet IH]; intros s.
  - simpl. by rewrite app_nil_r.
  - change (ScreenRecorder.run (e :: tr) s)
      with (ScreenRecorder.run tr (ScreenRecorder.step s e)).
    rewrite IH, plain_step_chunks by done.
    by rewrite (plain_delivered_cons e tr), filter_app, app_assoc.
Qed.

(** X14. In the plain recorder, the artifact made when a recording stops
    holds what was delivered since the start of that recording and nothing
    else: whatever the component held before the start, and whatever pauses,
    resumptions, stop requests and errors came in between, the artifact is the
    blob of the delivered chunks that are not empty, in the order of their
    delivery, and its bytes are the bytes delivered, none lost and none
    twice. *)
Theorem plain_recording_artifact (tr : list ScreenRecorder.Event)
  (s : ScreenRecorder.State) :
  Forall (λ e, ScreenRecorder.starts e = false) tr →
  let s' :=
    ScreenRecorder.onstop
      (ScreenRecorder.run tr
         (ScreenRecorder.startRecording ScreenRecorder.Started s)) in
  ScreenRecorder.videoURL s' =
    Some (new_Blob (filter (λ b, size b > 0) (ScreenRecorder.delivered tr)) "video/webm") ∧
  (∀ blob, ScreenRecorder.videoURL s' = Some blob →
           blob_bytes blob = concat (blob_bytes <$> ScreenRecorder.delivered tr)) ∧
  ScreenRecorder.recording s' = false ∧
  ScreenRecorder.paused s' = false.
Proof.
  intros Hquiet s'.
  assert (ScreenRecorder.videoURL s' =
            Some (new_Blob (filter (λ b, size b > 0) (ScreenRecorder.delivered tr))
                    "video/webm")) as Hurl.
  { subst s'. unfold ScreenRecorder.onstop. simpl ScreenRecorder.videoURL.
    by rewrite plain_run_chunks. }
  split_and!; [exact Hurl| |done|done].
  intros blob Hblob. rewrite Hurl in Hblob. injection Hblob as <-.
  simpl. apply concat_nonempty_blobs.
Qed.

Lemma plain_recording_artifact_witness :
  ScreenRecorder.videoURL
    (ScreenRecorder.onstop
       (ScreenRecorder.run
          [ScreenRecorder.EvData blob1; ScreenRecorder.EvPauseRecording;
           ScreenRecorder.EvData blob0; ScreenRecorder.EvResumeRecording;
           ScreenRecorder.EvData blob2; ScreenRecorder.EvStopRecording]
          (ScreenRecorder.startRecording ScreenRecorder.Started
             ScreenRecorder.initial))) =
  Some (mkBlob [Byte.x01; Byte.x02; Byte.x03] "video/webm").
Proof.
  destruct (plain_recording_artifact
              [ScreenRecorder.EvData blob1; ScreenRecorder.EvPauseRecording;
               ScreenRecorder.EvData blob0; ScreenRecorder.EvResumeRecording;
               ScreenRecorder.EvData blob2; ScreenRecorder.EvStopRecording]
              ScreenRecorder.initial) as [Hurl _].
  - repeat constructor.
  - exact Hurl.
Defined.

(** X15. In the plain recorder, pausing and resuming are guarded by the
    state of the recorder: [pauseRecording] does nothing unless the recorder
    is recording, [resumeRecording] nothing unless it is paused, so a second
    pause in a row changes nothing and raises no toast.  From a recording
    recorder, a pause followed by a resumption restores the recorder and the
    flags and leaves the chunks, the artifact and the error as they were. *)
Theorem plain_pause_resume (s : ScreenRecorder.State) :
  (ScreenRecorder.mediaRecorderRef s ≠ Some rs_recording →
   ScreenRecorder.pauseRecording s = s) ∧
  (ScreenRecorder.mediaRecorderRef s ≠ Some rs_paused →
   ScreenRecorder.resumeRecording s = s) ∧
  ScreenRecorder.pauseRecording (ScreenRecorder.pauseRecording s) =
    ScreenRecorder.pauseRecording s ∧
  (ScreenRecorder.mediaRecorderRef s = Some rs_recording →
   let s' := ScreenRecorder.resumeRecording (ScreenRecorder.pauseRecording s) in
   ScreenRecorder.paused (ScreenRecorder.pauseRecording s) = true ∧
   ScreenRecorder.mediaRecorderRef s' = Some rs_recording ∧
   ScreenRecorder.paused s' = false ∧
   ScreenRecorder.recording s' = ScreenRecorder.recording s ∧
   ScreenRecorder.chunksRef s' = ScreenRecorder.chunksRef s ∧
   ScreenRecorder.videoURL s' = ScreenRecorder.videoURL s ∧
   ScreenRecorder.error s' = ScreenRecorder.error s).
Proof.
  unfold ScreenRecorder.pauseRecording, ScreenRecorder.resumeRecording.
  split_and!.
  - intros Hstate. by destruct (ScreenRecorder.mediaRecorderRef s) as [[]|].
  - intros Hstate. by destruct (ScreenRecorder.mediaRecorderRef s) as [[]|].
  - destruct (ScreenRecorder.mediaRecorderRef s) as [[]|] eqn:Hstate; simpl;
      by rewrite ?Hstate.
  - intros Hstate. rewrite Hstate. simpl. done.
Qed.

Lemma plain_pause_resume_witness :
  ScreenRecorder.paused
    (ScreenRecorder.resumeRecording
       (ScreenRecorder.pauseRecording
          (ScreenRecorder.startRecording ScreenRecorder.Started
             ScreenRecorder.initial))) = false.
Proof.
  destruct (plain_pause_resume
              (ScreenRecorder.startRecording ScreenRecorder.Started
                 ScreenRecorder.initial)) as (_ & _ & _ & Hround).
  destruct Hround as (_ & _ & Hpaused & _); [reflexivity|exact Hpaused].
Defined.

(** ** The two pipelines of the advanced recorder *)

(** What a background callback does to the buffer, the counter, the session
    flag and the settings depends on these four alone. *)
Lemma step_core (s1 s2 : Recorder) (e : Event) :
  buffer_core s1 = buffer_core s2 →
  buffer_core (step s1 e) = buffer_core (step s2 e).
Proof.
  destruct s1 as [active1 url1 err1 time1 size1 cfg1 rec1 str1 buf1 idx1 log1].
  destruct s2 as [active2 url2 err2 time2 size2 cfg2 rec2 str2 buf2 idx2 log2].
  unfold buffer_core. simpl. intros Hcore.
  injection Hcore as -> -> -> ->.
  destruct e as [o| |d now|cfg now|minutes now| |c now| | |message|];
    simpl; try reflexivity.
  - by destruct o.
  - unfold ondataavailable. simpl. destruct d as [d|]; [|done].
    by destruct (decide (size d > 0)).
  - unfold captureLastMinutes. cbn [bufferChunksRef].
    destruct (decide (length buf2 = 0%nat)); [done|].
    destruct minutes as [m|]; [|done].
    by destruct (chunksToUse (Some m) now buf2).
  - unfold updateSettings. simpl.
    by destruct (is_bufferDuration c && active2).
Qed.

Lemma microphone_core (cfg : RecordingSettings) (mic : Advanced.MicResult) (sh : Recorder) :
  buffer_core (Advanced.microphone cfg mic sh) = buffer_core sh.
Proof.
  unfold Advanced.microphone.
  destruct (includeMicrophone cfg); [|done]. by destruct mic.
Qed.

(** A callback of the manual pipeline leaves these four as they are. *)
Lemma manual_act_core (a : Advanced.State) (x : Advanced.Action) :
  Advanced.background_events [x] = [] →
  buffer_core (Advanced.shared (Advanced.act a x)) = buffer_core (Advanced.shared a).
Proof.
  destruct x as [e|o|d| | | | | |]; intros Hmanual; try done; simpl.
  - unfold Advanced.startRecording, Advanced.startRecording_settle.
    destruct o as [|mic|mic|mic]; simpl; try done.
    + pose proof (microphone_core (settings (Advanced.shared a)) mic
                    (setVideoURL None (setError None (Advanced.shared a)))) as Hmic.
      unfold buffer_core in *. simpl in *. exact Hmic.
    + pose proof (microphone_core (settings (Advanced.shared a)) mic
                    (setVideoURL None (setError None (Advanced.shared a)))) as Hmic.
      unfold buffer_core in *. simpl in *. exact Hmic.
    + pose proof (microphone_core (settings (Advanced.shared a)) mic
                    (setVideoURL None (setError None (Advanced.shared a)))) as Hmic.
      unfold buffer_core in *. simpl in *. exact Hmic.
  - unfold Advanced.ondataavailable. by destruct (decide (size d > 0)).
  - unfold Advanced.stopRecording. by destruct (Advanced.mediaRecorderRef a).
  - unfold Advanced.pauseRecording.
    destruct (Advanced.mediaRecorderRef a) as [r|]; [|done].
    by destruct (Advanced.recorder_state r).
  - unfold Advanced.resumeRecording.
    destruct (Advanced.mediaRecorderRef a) as [r|]; [|done].
    by destruct (Advanced.recorder_state r).
  - by destruct (Advanced.recording a && negb (Advanced.paused a)).
Qed.

Lemma play_core (tr : list Advanced.Action) (a : Advanced.State) (s : Recorder) :
  buffer_core (Advanced.shared a) = buffer_core s →
  buffer_core (Advanced.shared (Advanced.play tr a)) =
  buffer_core (run (Advanced.background_events tr) s).
Proof.
  revert a s. induction tr as [|x tr IH]; intros a s Hcore; [done|].
  change (Advanced.play (x :: tr) a) with (Advanced.play tr (Advanced.act a x)).
  destruct x as [e|o|d| | | | | |];
    try (change (Advanced.background_events (?y :: tr))
           with (Advanced.background_events tr);
         apply IH; rewrite <- Hcore; by apply manual_act_core).
  change (Advanced.background_events (Advanced.Background e :: tr))
    with (e :: Advanced.background_events tr).
  rewrite run_cons. apply IH. simpl. by apply step_core.
Qed.

(** X16. The manual pipeline never touches the rolling buffer.  However the
    callbacks of the manual recorder are interleaved with those of the
    background pipeline, the buffer, the counter, the session flag and the
    settings end up as the background callbacks alone, in the same order,
    would have left them. *)
Theorem manual_callbacks_leave_buffer (tr : list Advanced.Action) (a : Advanced.State) :
  buffer_core (Advanced.shared (Advanced.play tr a)) =
  buffer_core (run (Advanced.background_events tr) (Advanced.shared a)).
Proof. by apply play_core. Qed.

Lemma manual_act_quiet (a : Advanced.State) (x : Advanced.Action) :
  Advanced.starts x = false →
  Advanced.chunksRef (Advanced.act a x) =
    Advanced.chunksRef a ++ filter (λ b, size b > 0) (Advanced.delivered [x]) ∧
  Advanced.recorder_options <$> Advanced.mediaRecorderRef (Advanced.act a x) =
    Advanced.recorder_options <$> Advanced.mediaRecorderRef a.
Proof.
  destruct x as [e|o|d| | | | | |]; intros Hstart; try done.
  - simpl. by rewrite app_nil_r.
  - change (Advanced.delivered [Advanced.Data d]) with [d].
    rewrite filter_cons, filter_nil. simpl. unfold Advanced.ondataavailable.
    destruct (decide (size d > 0)); simpl; by rewrite ?app_nil_r.
  - simpl. by rewrite app_nil_r.
  - simpl. by rewrite app_nil_r.
  - simpl. unfold Advanced.stopRecording.
    destruct (Advanced.mediaRecorderRef a) as [r|] eqn:Href; simpl;
      rewrite app_nil_r, ?Href; done.
  - simpl. unfold Advanced.pauseRecording.
    destruct (Advanced.mediaRecorderRef a) as [r|] eqn:Href; simpl;
      [|by rewrite app_nil_r, ?Href].
    destruct (Advanced.recorder_state r); simpl; rewrite app_nil_r, ?Href; done.
  - simpl. unfold Advanced.resumeRecording.
    destruct (Advanced.mediaRecorderRef a) as [r|] eqn:Href; simpl;
      [|by rewrite app_nil_r, ?Href].
    destruct (Advanced.recorder_state r); simpl; rewrite app_nil_r, ?Href; done.
  - simpl. destruct (Advanced.recording a && negb (Advanced.paused a)); simpl;
      by rewrite app_nil_r.
Qed.

Lemma manual_delivered_cons (x : Advanced.Action) (tr : list Advanced.Action) :
  Advanced.delivered (x :: tr) = Advanced.delivered [x] ++ Advanced.delivered tr.
Proof. unfold Advanced.delivered. simpl. by destruct x. Qed.

Lemma manual_play_quiet (tr : list Advanced.Action) (a : Advanced.State) :
  Forall (λ x, Advanced.starts x = false) tr →
  Advanced.chunksRef (Advanced.play tr a) =
    Advanced.chunksRef a ++ filter (λ b, size b > 0) (Advanced.delivered tr) ∧
  Advanced.recorder_options <$> Advanced.mediaRecorderRef (Advanced.play tr a) =
    Advanced.recorder_options <$> Advanced.mediaRecorderRef a.
Proof.
  intros Hquiet. revert a.
  induction Hquiet as [|x tr Hx Hquiet IH]; intros a.
  - simpl. by rewrite app_nil_r.
  - change (Advanced.play (x :: tr) a) with (Advanced.play tr (Advanced.act a x)).
    destruct (IH (Advanced.act a x)) as [-> ->].
    destruct (manual_act_quiet a x Hx) as [-> ->].
    by rewrite (manual_delivered_cons x tr), filter_app, app_assoc.
Qed.

(** X17. In the advanced recorder, the artifact of a manual recording holds
    what the manual recorder delivered since the start of that recording, in
    the order of delivery and without the empty chunks, whatever the
    component held before and whatever callbacks of either pipeline came in
    between; its bytes are the bytes delivered.  The recorder keeps the
    options it was started with, taken from the settings at the start, and
    when the recording stops the flags and the clock are reset. *)
Theorem manual_recording_artifact (tr : list Advanced.Action)
  (mic : Advanced.MicResult) (a : Advanced.State) :
  Forall (λ x, Advanced.starts x = false) tr →
  let a' :=
    Advanced.onstop
      (Advanced.play tr (Advanced.startRecording (Advanced.Started mic) a)) in
  videoURL (Advanced.shared a') =
    Some (new_Blob (filter (λ b, size b > 0) (Advanced.delivered tr)) "video/webm") ∧
  (∀ blob, videoURL (Advanced.shared a') = Some blob →
           blob_bytes blob = concat (blob_bytes <$> Advanced.delivered tr)) ∧
  Advanced.recorder_options <$> Advanced.mediaRecorderRef a' =
    Some (Advanced.recorderOptions (settings (Advanced.shared a))) ∧
  Advanced.recording a' = false ∧
  Advanced.paused a' = false ∧
  Advanced.recordingTime a' = 0.
Proof.
  intros Hquiet a'.
  destruct (manual_play_quiet tr
              (Advanced.startRecording (Advanced.Started mic) a) Hquiet)
    as [Hchunks Hoptions].
  assert (videoURL (Advanced.shared a') =
            Some (new_Blob (filter (λ b, size b > 0) (Advanced.delivered tr))
                    "video/webm")) as Hurl.
  { change (Advanced.chunksRef (Advanced.startRecording (Advanced.Started mic) a))
      with (@nil Blob) in Hchunks.
    change (videoURL (Advanced.shared a'))
      with (Some (new_Blob
                    (Advanced.chunksRef
                       (Advanced.play tr
                          (Advanced.startRecording (Advanced.Started mic) a)))
                    "video/webm")).
    by rewrite Hchunks. }
  split_and!; [exact Hurl| |exact Hoptions|done|done|done].
  intros blob Hblob. rewrite Hurl in Hblob. injection Hblob as <-.
  simpl. apply concat_nonempty_blobs.
Qed.

Lemma manual_recording_artifact_witness :
  videoURL
    (Advanced.shared
       (Advanced.onstop
          (Advanced.play
             [Advanced.Data blob1;
              Advanced.Background (EvStart (RecorderStarted stream1 true));
              Advanced.Background (EvData (Some blob2) 1000);
              Advanced.PauseRecording; Advanced.Data blob0;
              Advanced.ResumeRecording; Advanced.Data blob2]
             (Advanced.startRecording (Advanced.Started Advanced.MicFailed)
                Advanced.initial)))) =
  Some (mkBlob [Byte.x01; Byte.x02; Byte.x03] "video/webm").
Proof.
  destruct (manual_recording_artifact
              [Advanced.Data blob1;
               Advanced.Background (EvStart (RecorderStarted stream1 true));
               Advanced.Background (EvData (Some blob2) 1000);
               Advanced.PauseRecording; Advanced.Data blob0;
               Advanced.ResumeRecording; Advanced.Data blob2]
              Advanced.MicFailed Advanced.initial) as [Hurl _].
  - repeat constructor.
  - exact Hurl.
Defined.

(** ** The window and the clock *)

(** X18. Right after a sweep, asking for the whole window is asking for
    all: at the time of the sweep, an extraction of as many minutes as the
    window of the sweep, or more, uses the chunks that capturing all uses. *)
Theorem whole_window_is_all (cfg : RecordingSettings) (m now : Z) (s : Recorder) :
  bufferDuration cfg ≤ m →
  chunksToUse (Some m) now (bufferChunksRef (cleanupOldBufferChunks cfg now s)) =
  chunksToUse None now (bufferChunksRef (cleanupOldBufferChunks cfg now s)).
Proof.
  intros Hwindow. simpl. apply filter_all.
  apply Forall_forall. intros c Hc.
  rewrite sortedChunks_Permutation in Hc.
  apply list_elem_of_filter in Hc as [Hlive _].
  unfold maxAge in Hlive. lia.
Qed.

Lemma whole_window_is_all_witness :
  chunksToUse (Some 1) 62500
    (bufferChunksRef (cleanupOldBufferChunks (settings five_chunks) 62500 five_chunks)) =
  chunksToUse None 62500
    (bufferChunksRef (cleanupOldBufferChunks (settings five_chunks) 62500 five_chunks)).
Proof.
  apply (whole_window_is_all (settings five_chunks) 1 62500 five_chunks).
  by vm_compute.
Defined.

(** A callback thins the buffer out, or it is a [dataavailable] that appends
    a chunk stamped with the clock value it has read. *)
Lemma step_sublist_or_append (s : Recorder) (e : Event) :
  bufferChunksRef (step s e) `sublist_of` bufferChunksRef s ∨
  ∃ d now,
    e = EvData (Some d) now ∧
    bufferChunksRef (step s e) =
      bufferChunksRef s ++ [{| data := d; timestamp := now; index := chunkIndexRef s |}].
Proof.
  destruct e as [o| |d now|cfg now|minutes now| |c now| | |message|].
  - left. destruct (startBackgroundRecording_buffer o s) as [Hbuf _].
    simpl. rewrite Hbuf. apply sublist_nil_l.
  - by left.
  - destruct d as [d|]; [|by left].
    destruct (decide (size d > 0)) as [Hsize|Hsize].
    + right. exists d, now. split; [done|].
      by destruct (ondataavailable_positive d now s Hsize).
    + left. simpl. unfold ondataavailable. by rewrite decide_False.
  - left. apply sublist_filter.
  - left. destruct (captureLastMinutes_buffer minutes now s) as [Hbuf _].
    simpl. by rewrite Hbuf.
  - left. apply sublist_nil_l.
  - left. simpl. unfold updateSettings.
    destruct (is_bufferDuration c && backgroundRecording s); simpl;
      [apply sublist_filter|done].
  - left. apply sublist_nil_l.
  - by left.
  - by left.
  - by left.
Qed.

Lemma Forall_sublist {A : Type} (P : A → Prop) (l k : list A) :
  l `sublist_of` k → Forall P k → Forall P l.
Proof.
  intros Hsub Hk. apply Forall_forall. intros x Hx.
  rewrite Forall_forall in Hk. apply Hk. by eapply elem_of_sublist.
Qed.

Lemma run_timestamps_ordered (tr : list Event) (s : Recorder) (t0 : Z) :
  StronglySorted Z.le (data_times tr) →
  Forall (λ t, t0 ≤ t) (data_times tr) →
  timestamps_ordered (bufferChunksRef s) →
  Forall (λ c, timestamp c ≤ t0) (bufferChunksRef s) →
  timestamps_ordered (bufferChunksRef (run tr s)).
Proof.
  revert s t0. induction tr as [|e tr IH]; intros s t0 Hclock Hafter Hord Hbefore;
    [done|].
  rewrite run_cons.
  destruct (step_sublist_or_append s e) as [Hsub|(d & now & -> & Happ)].
  - assert (StronglySorted Z.le (data_times tr) ∧ Forall (λ t, t0 ≤ t) (data_times tr))
      as [Hclock' Hafter'].
    { unfold data_times in *. destruct e; simpl in *; try done.
      apply StronglySorted_cons in Hclock as [_ Hclock].
      apply Forall_cons_1 in Hafter as [_ Hafter]. done. }
    apply (IH _ t0); [done|done| |].
    + by eapply StronglySorted_sublist.
    + by eapply Forall_sublist.
  - unfold data_times in Hclock, Hafter. simpl in Hclock, Hafter.
    apply StronglySorted_cons in Hclock as [Hnext Hclock].
    apply Forall_cons_1 in Hafter as [Hnow Hafter].
    apply (IH _ now); [done|done| |].
    + rewrite Happ. apply StronglySorted_app_2; [|done|repeat constructor].
      intros a b Ha Hb. apply list_elem_of_singleton in Hb as ->. simpl.
      rewrite Forall_forall in Hbefore. specialize (Hbefore a Ha). lia.
    + rewrite Happ. apply Forall_app. split.
      * eapply Forall_impl; [exact Hbefore|]. simpl; intros; lia.
      * repeat constructor. simpl. lia.
Qed.

(** X19. When the clock read by the [dataavailable] callbacks never goes
    back, the chunks are stored in the order of their timestamps in every
    state the component reaches from its first render, whatever sweeps,
    clears, extractions and restarts come in between. *)
Theorem reachable_timestamps_ordered (tr : list Event) :
  StronglySorted Z.le (data_times tr) →
  timestamps_ordered (bufferChunksRef (run tr initial)).
Proof.
  intros Hclock.
  destruct (data_times tr) as [|t0 times] eqn:Htimes.
  - apply (run_timestamps_ordered tr initial 0);
      rewrite ?Htimes; by constructor.
  - apply (run_timestamps_ordered tr initial t0); rewrite ?Htimes.
    + exact Hclock.
    + apply StronglySorted_cons in Hclock as [Hnext _].
      constructor; [lia|done].
    + constructor.
    + constructor.
Qed.

Lemma reachable_timestamps_ordered_witness :
  timestamps_ordered
    (bufferChunksRef
       (run [EvStart (RecorderStarted stream1 true); EvOnStart;
             EvData (Some blob1) 0; EvTick initial_settings 500;
             EvData (Some blob2) 1000; EvData (Some blob1) 1000]
          initial)).
Proof.
  apply reachable_timestamps_ordered.
  vm_compute. repeat constructor; discriminate.
Defined.

(** X20. On a buffer stored in the order of its timestamps, a sweep only
    cuts off the front: the chunks kept are a suffix of the buffer. *)
Theorem cleanup_keeps_suffix (cfg : RecordingSettings) (now : Z) (s : Recorder) :
  timestamps_ordered (bufferChunksRef s) →
  bufferChunksRef (cleanupOldBufferChunks cfg now s) `suffix_of` bufferChunksRef s.
Proof.
  rewrite cleanup_buffer. unfold timestamps_ordered.
  induction 1 as [|c buf Hord IH Hall]; [done|].
  rewrite filter_cons. case_decide as Hlive.
  - rewrite filter_all; [done|].
    eapply Forall_impl; [exact Hall|]. simpl; intros; lia.
  - by apply suffix_cons_r.
Qed.

Lemma cleanup_keeps_suffix_witness :
  bufferChunksRef (cleanupOldBufferChunks (settings five_chunks) 62500 five_chunks)
    `suffix_of` bufferChunksRef five_chunks.
Proof.
  apply cleanup_keeps_suffix. unfold timestamps_ordered.
  vm_compute. repeat constructor; discriminate.
Defined.
